(** * A shallow embedding of the photo bot's core ([app.py])

    The bot turns a text prompt into a generated image, keeps one visible
    result per user and lets the user regenerate the same prompt.  This file
    embeds the helpers and the two handlers of [app.py] and proves the
    properties of its specification against them.

    Conventions.
    - A Python [str] is a sequence of Unicode code points: [pystr] is
      [list N].  Literals made of ASCII characters are written with [lit];
      the others are spelled out as code points.
    - A Python call either returns or raises: [outcome].  Only exceptions
      deriving from [Exception] are modelled, the ones [except Exception]
      catches.
    - The process-wide dict [UserSessions] and the calls the bot makes to the
      outside (Telegram, the image provider, the file system) live in a
      [World]; the answers of the outside are given by an [Env]. *)

From Stdlib Require Import ZArith NArith Ascii String List Lia.
From stdpp Require Import gmap strings list pretty.

Local Open Scope N_scope.

(** ** Python strings *)

Abbreviation pystr := (list N).

(** An ASCII literal as a Python string. *)
Fixpoint lit (s : string) : pystr :=
  match s with
  | EmptyString => []
  | String a s' => N_of_ascii a :: lit s'
  end.

(** The newline character, written [\n] in the source. *)
Definition NL : N := 10.

(** [str.isspace] on one character: the code points Python treats as
    whitespace, which [str.strip()] removes. *)
Definition py_isspace (c : N) : bool :=
  ((9 <=? c) && (c <=? 13)) || ((28 <=? c) && (c <=? 32))
  || (c =? 133) || (c =? 160) || (c =? 5760)
  || ((8192 <=? c) && (c <=? 8202))
  || (c =? 8232) || (c =? 8233) || (c =? 8239) || (c =? 8287) || (c =? 12288).

Fixpoint lstrip (s : pystr) : pystr :=
  match s with
  | [] => []
  | c :: s' => if py_isspace c then lstrip s' else s
  end.

Definition rstrip (s : pystr) : pystr := rev (lstrip (rev s)).

(** [s.strip()] *)
Definition strip (s : pystr) : pystr := rstrip (lstrip s).

(** [text or ""] for an optional string. *)
Definition or_empty (text : option pystr) : pystr :=
  match text with
  | Some s => s
  | None => []
  end.

(** Truthiness of an optional string: [None] and [""] are falsy. *)
Definition truthy_str (o : option pystr) : bool :=
  match o with
  | Some (_ :: _) => true
  | _ => false
  end.

(** Truthiness of an optional integer: [None] and [0] are falsy. *)
Definition truthy_int (o : option Z) : bool :=
  match o with
  | Some z => negb (Z.eqb z 0)
  | None => false
  end.

(** ** Language detector ([detect_language], lines 43-45) *)

(** The character class [\u0980-\u09FF] of the regular expression. *)
Definition in_bangla_block (c : N) : bool := (0x0980 <=? c) && (c <=? 0x09FF).

(** [re.search] with that one class is truthy when some character of [s]
    is in the class. *)
Definition re_search_bangla (s : pystr) : bool := existsb in_bangla_block s.

Definition detect_language (text : option pystr) : pystr :=
  if re_search_bangla (or_empty text) then lit "bangla" else lit "english".

(** ** Regeneration payload (lines 105-106, 139-140, 176-177, 186-187) *)

(** The reserved separator [|]. *)
Definition SEP : N := 124.

(** [s.partition(sep)] when [sep] occurs: the text before the first [sep] and
    the text after it. *)
Fixpoint split_first (sep : N) (s : pystr) : option (pystr * pystr) :=
  match s with
  | [] => None
  | c :: s' =>
      if c =? sep then Some ([], s')
      else match split_first sep s' with
           | Some (a, b) => Some (c :: a, b)
           | None => None
           end
  end.

(** [s.split("|", 1)]: at most one split, at the first separator. *)
Definition split1 (s : pystr) : list pystr :=
  match split_first SEP s with
  | Some (a, b) => [a; b]
  | None => [s]
  end.

(** The payload put on a button: [f"{kind}|{script}"]; the source only ever
    uses the kind [regen], see [callback_data]. *)
Definition encode (kind script : pystr) : pystr := kind ++ SEP :: script.

(** [f"regen|{script}"] *)
Definition callback_data (script : pystr) : pystr := lit "regen|" ++ script.

(** Lines 176-177:
    [data = (query.data or "").split("|", 1)]
    [script = data[1] if len(data) == 2 else ""] *)
Definition regen_script (query_data : option pystr) : pystr :=
  match split1 (or_empty query_data) with
  | [_; script] => script
  | _ => []
  end.

(** The two parts of a payload: [data[0]] and the script of [regen_script]. *)
Definition decode (payload : pystr) : pystr * pystr :=
  (hd [] (split1 payload), regen_script (Some payload)).

(** The text of a prompt before its first separator (the whole prompt when
    it has none). *)
Definition before_first_sep (s : pystr) : pystr :=
  match split_first SEP s with
  | Some (a, _) => a
  | None => s
  end.

(** ** Exceptions and outcomes *)

Inductive exc_class :=
  | RuntimeError
  | IndexError
  | TypeError
  | KeyError
  | OtherException (name : pystr).

(** An exception object: its class and the text [str(e)] gives. *)
Record exn := Exn { exc_type : exc_class; exc_str : pystr }.

Inductive outcome (A : Type) :=
  | Return (a : A)
  | Raise (e : exn).
Arguments Return {A} a.
Arguments Raise {A} e.

(** ** Data of the two outside services *)

(** One entry of [resp.data]: the attributes the generator reads with
    [getattr(_, name, None)]. *)
Record Image := { url : option pystr; b64_json : option pystr }.

(** The provider's response: [resp.data] is a list or [None]. *)
Record ImagesResponse := { data : option (list Image) }.

(** The keyword arguments of [oai_client.images.generate]. *)
Record ImageRequest := {
  req_model : pystr;
  req_prompt : pystr;
  req_size : pystr;
  req_n : Z
}.

Inductive button :=
  | CallbackButton (label : pystr) (payload : pystr)
  | UrlButton (label : pystr) (target : option pystr).

Abbreviation markup := (list (list button)).

Record PhotoSize := { file_id : pystr }.

(** A message Telegram returns for a send. *)
Record Message := {
  message_id : Z;
  msg_chat_id : Z;
  photo : list PhotoSize
}.

Record File := { file_path : option pystr }.

(** The fields [handle_script] reads from its update. *)
Record ScriptUpdate := {
  upd_user_id : Z;
  upd_chat_id : Z;
  upd_text : option pystr
}.

(** The fields [on_regen_button] reads from its callback query. *)
Record RegenQuery := {
  query_user_id : Z;
  query_chat_id : Z;
  query_data : option pystr
}.

(** ** The world *)

(** A call made to the outside, with its arguments. *)
Inductive call :=
  | CallAnswer
  | CallDeleteMessage (chat_id message_id : Z)
  | CallImagesGenerate (req : ImageRequest)
  | CallWriteTempFile (raw : list Byte.byte)
  | CallReplyPhoto (chat_id : Z) (image : pystr) (caption : pystr)
      (reply_markup : markup)
  | CallReplyText (chat_id : Z) (text : pystr)
  | CallGetFile (id : pystr)
  | CallEditReplyMarkup (chat_id message_id : Z) (reply_markup : markup).

(** [UserSessions] maps a user id to a dict with the keys [chat_id] and
    [last_msg_id]; [calls] lists the outside calls made so far, oldest first;
    [debug_log] the messages passed to [logger.debug]; [uuid_draws] counts the
    calls of [uuid.uuid4]. *)
Record World := {
  UserSessions : gmap Z (gmap string Z);
  calls : list call;
  debug_log : list pystr;
  uuid_draws : nat
}.

(** What the outside answers.  Every call is answered from its arguments and
    the number of outside calls made before it, so that two calls with the
    same arguments may be answered differently.  [write_temp_png] stands for
    lines 81-86: creating the named temporary file, writing, flushing and
    closing it, which gives the file's name or raises. *)
Record Env := {
  uuid4 : nat -> pystr;
  images_generate : nat -> ImageRequest -> outcome ImagesResponse;
  b64decode : pystr -> outcome (list Byte.byte);
  write_temp_png : nat -> list Byte.byte -> outcome pystr;
  delete_message : nat -> Z -> Z -> outcome unit;
  reply_photo : nat -> Z -> pystr -> pystr -> markup -> outcome Message;
  reply_text : nat -> Z -> pystr -> outcome Message;
  get_file : nat -> pystr -> outcome File;
  edit_reply_markup : nat -> Z -> Z -> markup -> outcome unit;
  answer : nat -> outcome unit
}.

(** ** A state and exception monad *)

Definition M (A : Type) : Type := World -> outcome A * World.

Definition ret {A} (a : A) : M A := fun w => (Return a, w).

Definition raise {A} (e : exn) : M A := fun w => (Raise e, w).

Definition bind {A B} (m : M A) (f : A -> M B) : M B :=
  fun w =>
    match m w with
    | (Return a, w') => f a w'
    | (Raise e, w') => (Raise e, w')
    end.

(** [try: m  except Exception as e: h e] *)
Definition try_except {A} (m : M A) (h : exn -> M A) : M A :=
  fun w =>
    match m w with
    | (Return a, w') => (Return a, w')
    | (Raise e, w') => h e w'
    end.

(** A pure computation that may raise. *)
Definition lift {A} (o : outcome A) : M A := fun w => (o, w).

Notation "x <- m ;; k" := (bind m (fun x => k))
  (at level 100, m at next level, right associativity).
Notation "m ;;; k" := (bind m (fun _ => k))
  (at level 100, right associativity).

(** An outside call: it is recorded, and answered by the environment. *)
Definition outside {A} (c : call) (answer_at : nat -> outcome A) : M A :=
  fun w =>
    (answer_at (length (calls w)),
     {| UserSessions := UserSessions w;
        calls := calls w ++ [c];
        debug_log := debug_log w;
        uuid_draws := uuid_draws w |}).

(** [logger.debug(msg)] *)
Definition logger_debug (msg : pystr) : M unit :=
  fun w =>
    (Return tt,
     {| UserSessions := UserSessions w;
        calls := calls w;
        debug_log := debug_log w ++ [msg];
        uuid_draws := uuid_draws w |}).

Definition set_sessions (s : gmap Z (gmap string Z)) (w : World) : World :=
  {| UserSessions := s;
     calls := calls w;
     debug_log := debug_log w;
     uuid_draws := uuid_draws w |}.

(** [UserSessions[user_id] = UserSessions.get(user_id, {})] *)
Definition ensure_session (user_id : Z) : M unit :=
  fun w =>
    (Return tt,
     set_sessions
       (<[user_id := default ∅ (UserSessions w !! user_id)]> (UserSessions w)) w).

(** [UserSessions[user_id][key] = value]; the outer subscript raises
    [KeyError] on a missing user. *)
Definition session_setitem (user_id : Z) (key : string) (value : Z) : M unit :=
  fun w =>
    match UserSessions w !! user_id with
    | Some d =>
        (Return tt,
         set_sessions (<[user_id := <[key := value]> d]> (UserSessions w)) w)
    | None => (Raise (Exn KeyError (lit (pretty user_id))), w)
    end.

(** ** The helpers *)

Section Bot.

Variable env : Env.

(** [delete_last_message_if_any], lines 47-55.  [data] is
    [UserSessions.get(user_id) or {}]; the test [last_msg_id and chat_id]
    is Python truthiness, so an id that is [None] or [0] skips the delete. *)
Definition delete_last_message_if_any (user_id : Z) : M unit :=
  fun w =>
    let data := default ∅ (UserSessions w !! user_id) in
    let last_msg_id := data !! "last_msg_id"%string in
    let chat_id := data !! "chat_id"%string in
    if truthy_int last_msg_id && truthy_int chat_id then
      match last_msg_id, chat_id with
      | Some m, Some c =>
          try_except
            (outside (CallDeleteMessage c m) (fun n => delete_message env n c m))
            (fun e =>
               logger_debug
                 (lit "Could not delete previous message: " ++ exc_str e))
            w
      | _, _ => (Return tt, w)
      end
    else (Return tt, w).

(** [variation_suffix], lines 57-59: one fresh UUID per call. *)
Definition variation_suffix : M pystr :=
  fun w =>
    (Return ([NL; NL] ++ lit "# variation:" ++ uuid4 env (uuid_draws w)),
     {| UserSessions := UserSessions w;
        calls := calls w;
        debug_log := debug_log w;
        uuid_draws := S (uuid_draws w) |}).

(** The request of lines 67-72 for an already suffixed prompt. *)
Definition image_request (prompt : pystr) : ImageRequest :=
  {| req_model := lit "gpt-image-1";
     req_prompt := prompt;
     req_size := lit "1024x1024";
     req_n := 1 |}.

(** [resp.data[0]]: subscripting [None] raises [TypeError], an empty list
    [IndexError]. *)
Definition first_item (resp : ImagesResponse) : outcome Image :=
  match data resp with
  | None => Raise (Exn TypeError (lit "'NoneType' object is not subscriptable"))
  | Some [] => Raise (Exn IndexError (lit "list index out of range"))
  | Some (item :: _) => Return item
  end.

(** The condition of line 74, [resp.data and getattr(resp.data[0], "url", None)],
    with the URL it selects. *)
Definition preferred_url (resp : ImagesResponse) : option pystr :=
  match data resp with
  | Some (item :: _) => if truthy_str (url item) then url item else None
  | _ => None
  end.

(** The body of the [try] of [generate_image_url], lines 67-87. *)
Definition generate_image_url_body (prompt : pystr) : M pystr :=
  suffix <- variation_suffix ;;
  let req := image_request (prompt ++ suffix) in
  resp <- outside (CallImagesGenerate req) (fun n => images_generate env n req) ;;
  match preferred_url resp with
  | Some u => ret u
  | None =>
      item <- lift (first_item resp) ;;
      if truthy_str (b64_json item) then
        raw <- lift (b64decode env (or_empty (b64_json item))) ;;
        name <- outside (CallWriteTempFile raw) (fun n => write_temp_png env n raw) ;;
        ret name
      else
        raise (Exn RuntimeError
                 (lit "OpenAI did not return URL or b64 image data."))
  end.

(** [generate_image_url], lines 61-89: whatever the body raises is raised
    again as [RuntimeError(str(e))]. *)
Definition generate_image_url (prompt : pystr) : M pystr :=
  try_except (generate_image_url_body prompt)
    (fun e => raise (Exn RuntimeError (exc_str e))).

(** The two regenerate buttons of lines 138-141 and 185-188. *)
Definition regen_keyboard (script : pystr) : markup :=
  [ [CallbackButton (lit "ENTIRE") (callback_data script)];
    [CallbackButton (lit "GO") (callback_data script)] ].

(** The keyboard of lines 104-108; the download label is U+2B07 U+FE0F
    followed by [ Download]. *)
Definition download_keyboard (script : pystr) (download_url : option pystr)
  : markup :=
  [ [CallbackButton (lit "ENTIRE") (callback_data script)];
    [CallbackButton (lit "GO") (callback_data script)];
    [UrlButton ([11015; 65039] ++ lit " Download") download_url] ].

(** [add_download_button], lines 91-111.  [msg.photo[-1]] is the last size. *)
Definition add_download_button (msg : Message) (script : pystr) : M unit :=
  try_except
    (match last (photo msg) with
     | None => ret tt
     | Some largest =>
         file <- outside (CallGetFile (file_id largest))
                   (fun n => get_file env n (file_id largest)) ;;
         let keyboard := download_keyboard script (file_path file) in
         outside
           (CallEditReplyMarkup (msg_chat_id msg) (message_id msg) keyboard)
           (fun n =>
              edit_reply_markup env n (msg_chat_id msg) (message_id msg)
                keyboard)
     end)
    (fun e =>
       logger_debug (lit "Failed to attach download button: " ++ exc_str e)).

(** The error notices of lines 159-162 and 202-205.  Both start with the
    cross mark U+274C. *)
Definition CROSS_MARK : N := 10060.

Definition bangla_template : pystr :=
  [CROSS_MARK; 32; 2447; 2453; 2463; 2495; 32; 2468; 2509; 2480; 2497; 2463;
   2495; 32; 2456; 2463; 2503; 2459; 2503; 33; NL; 2453; 2494; 2480; 2467;
   58; 32].

Definition english_template : pystr :=
  [CROSS_MARK] ++ lit " An error occurred!" ++ [NL] ++ lit "Reason: ".

Definition error_msg (script reason : pystr) : pystr :=
  if bool_decide (detect_language (Some script) = lit "bangla")
  then bangla_template ++ reason
  else english_template ++ reason.

(** ** The handlers *)

(** Both handlers end with the same [try]/[except] (lines 134-164 of
    [handle_script], lines 182-207 of [on_regen_button]); [update.message]
    and [query.message] both reply into [chat_id].  [deliver] is what follows
    the generator inside the [try], [notify_failure] the [except] clause with
    [reason = str(e)]. *)
Definition deliver (user_id chat_id : Z) (script image_url_or_path : pystr)
  : M unit :=
  let reply_markup := regen_keyboard script in
  sent <- outside (CallReplyPhoto chat_id image_url_or_path [] reply_markup)
            (fun n => reply_photo env n chat_id image_url_or_path []
                        reply_markup) ;;
  session_setitem user_id "last_msg_id" (message_id sent) ;;;
  add_download_button sent script.

Definition notify_failure (user_id chat_id : Z) (script reason : pystr)
  : M unit :=
  sent <- outside (CallReplyText chat_id (error_msg script reason))
            (fun n => reply_text env n chat_id (error_msg script reason)) ;;
  session_setitem user_id "last_msg_id" (message_id sent).

Definition respond (user_id chat_id : Z) (script : pystr) : M unit :=
  try_except
    (image_url_or_path <- generate_image_url script ;;
     deliver user_id chat_id script image_url_or_path)
    (fun e => notify_failure user_id chat_id script (exc_str e)).

(** Lines 125-132 of [handle_script] and 170-180 of [on_regen_button]: the
    chat is recorded, then the previous message is retired. *)
Definition record_chat_and_retire (user_id chat_id : Z) : M unit :=
  ensure_session user_id ;;;
  session_setitem user_id "chat_id" chat_id ;;;
  delete_last_message_if_any user_id.

(** [handle_script], lines 124-164. *)
Definition handle_script (update : ScriptUpdate) : M unit :=
  let user_id := upd_user_id update in
  let chat_id := upd_chat_id update in
  let script := strip (or_empty (upd_text update)) in
  record_chat_and_retire user_id chat_id ;;;
  respond user_id chat_id script.

(** [on_regen_button], lines 166-207.  Parsing the payload (lines 176-177)
    touches nothing, so it is done first here. *)
Definition on_regen_button (query : RegenQuery) : M unit :=
  let user_id := query_user_id query in
  let chat_id := query_chat_id query in
  let script := regen_script (query_data query) in
  outside CallAnswer (answer env) ;;;
  record_chat_and_retire user_id chat_id ;;;
  respond user_id chat_id script.

End Bot.

(** ** Predicates of the specification *)

(** The text holds a code point of the Bangla block U+0980..U+09FF. *)
Definition contains_bangla (text : option pystr) : Prop :=
  exists s c, text = Some s /\ In c s /\ 0x0980 <= c <= 0x09FF.

(** The call is a delete request, respectively a message sent to the user. *)
Definition is_delete (c : call) : bool :=
  match c with
  | CallDeleteMessage _ _ => true
  | _ => false
  end.

Definition is_send (c : call) : bool :=
  match c with
  | CallReplyPhoto _ _ _ _ | CallReplyText _ _ => true
  | _ => false
  end.

(** The request the generator sends for [prompt] from the world [w], and the
    provider's answer to it. *)
Definition upstream_request (env : Env) (prompt : pystr) (w : World)
  : ImageRequest :=
  image_request
    (prompt ++ [NL; NL] ++ lit "# variation:" ++ uuid4 env (uuid_draws w)).

Definition upstream_answer (env : Env) (prompt : pystr) (w : World)
  : outcome ImagesResponse :=
  images_generate env (length (calls w)) (upstream_request env prompt w).

(** Every call a computation adds to the world satisfies [P]. *)
Definition emits (P : call -> Prop) {A} (m : M A) : Prop :=
  forall w, exists new, calls (snd (m w)) = calls w ++ new /\ Forall P new.

(** Two worlds that differ at most in their debug log. *)
Definition same_but_log (w1 w2 : World) : Prop :=
  UserSessions w1 = UserSessions w2
  /\ calls w1 = calls w2
  /\ uuid_draws w1 = uuid_draws w2.

(** A computation that never reads the debug log. *)
Definition log_blind {A} (m : M A) : Prop :=
  forall w1 w2, same_but_log w1 w2 ->
    fst (m w1) = fst (m w2) /\ same_but_log (snd (m w1)) (snd (m w2)).

(** The environment [env] with another answer to delete requests. *)
Definition with_delete_message (env : Env)
  (del : nat -> Z -> Z -> outcome unit) : Env :=
  {| uuid4 := uuid4 env;
     images_generate := images_generate env;
     b64decode := b64decode env;
     write_temp_png := write_temp_png env;
     delete_message := del;
     reply_photo := reply_photo env;
     reply_text := reply_text env;
     get_file := get_file env;
     edit_reply_markup := edit_reply_markup env;
     answer := answer env |}.

(** The session of [user_id] tracks the message [message_id]: the id is
    stored under [last_msg_id], and is a Telegram message id, which is never
    [0]. *)
Definition tracks (w : World) (user_id message_id : Z) : Prop :=
  exists d, UserSessions w !! user_id = Some d
            /\ d !! "last_msg_id"%string = Some message_id
            /\ message_id <> 0%Z.

(** [last_msg_id] and [chat_id] of a user's session, when present. *)
Definition last_message (w : World) (user_id : Z) : option Z :=
  UserSessions w !! user_id ≫= (fun d => d !! "last_msg_id"%string).

Definition session_chat (w : World) (user_id : Z) : option Z :=
  UserSessions w !! user_id ≫= (fun d => d !! "chat_id"%string).

(** The first item of the response, if any, has a truthy [url],
    respectively a truthy [b64_json]. *)
Definition carries_url (resp : ImagesResponse) : bool :=
  match data resp with
  | Some (item :: _) => truthy_str (url item)
  | _ => false
  end.

Definition carries_b64 (resp : ImagesResponse) : bool :=
  match data resp with
  | Some (item :: _) => truthy_str (b64_json item)
  | _ => false
  end.

(** The reason the generator gives for a response without an image. *)
Definition no_image_reason (resp : ImagesResponse) : pystr :=
  match data resp with
  | None => lit "'NoneType' object is not subscriptable"
  | Some [] => lit "list index out of range"
  | Some (_ :: _) => lit "OpenAI did not return URL or b64 image data."
  end.

(** The session store once the chat of the current update is recorded
    (lines 128-129 and 172-173). *)
Definition recorded (w : World) (user_id chat_id : Z) : gmap Z (gmap string Z) :=
  <[user_id := <["chat_id"%string := chat_id]>
                 (default ∅ (UserSessions w !! user_id))]> (UserSessions w).

(** A message returned by one of the two sends to [chat_id]. *)
Definition sent_by (env : Env) (chat_id : Z) (sent : Message) : Prop :=
  (exists n image caption reply_markup,
      reply_photo env n chat_id image caption reply_markup = Return sent)
  \/ (exists n text, reply_text env n chat_id text = Return sent).

(** Two runs that agree on their outcome and on everything but the debug
    log. *)
Definition same_visible {A} (r1 r2 : outcome A * World) : Prop :=
  fst r1 = fst r2 /\ same_but_log (snd r1) (snd r2).

(** The prompt handed to the generator shows in the request it sends. *)
Definition generator_called_with (env : Env) (prompt : pystr)
  (cs : list call) : Prop :=
  exists n,
    In (CallImagesGenerate
          (image_request
             (prompt ++ [NL; NL] ++ lit "# variation:" ++ uuid4 env n))) cs.

(** ** Sample environments, worlds and updates *)

Definition rate_limited : exn :=
  Exn (OtherException (lit "RateLimitError")) (lit "rate limit exceeded").

Definition not_found : exn :=
  Exn (OtherException (lit "BadRequest")) (lit "Message to delete not found").

Definition sample_message (n : nat) (chat_id : Z) (sizes : list PhotoSize)
  : Message :=
  {| message_id := 1000 + Z.of_nat n; msg_chat_id := chat_id; photo := sizes |}.

(** The provider answers with [provider]; deletes fail; sends succeed. *)
Definition sample_env (provider : outcome ImagesResponse) : Env :=
  {| uuid4 n := lit "6f1c2d3e-0000-4000-8000-00000000000" ++ lit (pretty n);
     images_generate _ _ := provider;
     b64decode _ := Return [];
     write_temp_png _ _ := Return (lit "/tmp/tmpab12cd.png");
     delete_message _ _ _ := Raise not_found;
     reply_photo n chat_id _ _ _ :=
       Return (sample_message n chat_id [ {| file_id := lit "AgACAgQ" |} ]);
     reply_text n chat_id _ := Return (sample_message n chat_id []);
     get_file _ _ := Return {| file_path := Some (lit "https://t/file.png") |};
     edit_reply_markup _ _ _ _ := Return tt;
     answer _ := Return tt |}.

Definition env_rate_limited : Env := sample_env (Raise rate_limited).

Definition env_empty_response : Env :=
  sample_env (Return {| data := Some [] |}).

Definition env_url : Env :=
  sample_env
    (Return {| data := Some [ {| url := Some (lit "https://img/1.png");
                                 b64_json := None |} ] |}).

(** User 7 has the message 41 tracked in the chat 100. *)
Definition w_tracked : World :=
  {| UserSessions :=
       {[ 7%Z := {[ "chat_id"%string := 100%Z; "last_msg_id"%string := 41%Z ]} ]};
     calls := [];
     debug_log := [];
     uuid_draws := 0 |}.

Definition upd_bicycle : ScriptUpdate :=
  {| upd_user_id := 7; upd_chat_id := 100;
     upd_text := Some (lit "a red bicycle") |}.

(** The same user sends [ a] with a leading space. *)
Definition upd_padded : ScriptUpdate :=
  {| upd_user_id := 7; upd_chat_id := 100; upd_text := Some (lit " a") |}.

(** The Bangla prompt of the specification's scenario. *)
Definition bangla_bicycle : pystr :=
  [2482; 2494; 2482; 32; 2447; 2453; 2463; 2495; 32; 2476; 2494; 2439; 2488;
   2494; 2439; 2453; 2503; 2482].

Definition upd_bangla : ScriptUpdate :=
  {| upd_user_id := 7; upd_chat_id := 100; upd_text := Some bangla_bicycle |}.

Definition query_bicycle : RegenQuery :=
  {| query_user_id := 7; query_chat_id := 100;
     query_data := Some (lit "regen|a red bicycle") |}.

(** ** The start command ([start], lines 114-122) *)

(** The fields [start] reads from its update. *)
Record StartUpdate := {
  start_chat_id : Z;
  start_first_name : pystr
}.

(** [f"\U0001F44B Welcome {user.first_name}!"]: the waving hand U+1F44B. *)
Definition welcome_msg (first_name : pystr) : pystr :=
  [128075] ++ lit " Welcome " ++ first_name ++ lit "!".

(** The Bangla request for a script, line 121. *)
Definition ask_msg : pystr :=
  [9997; 65039; 32; 2470; 2479; 2492; 2494; 32; 2453; 2480; 2503; 32; 2447;
   2453; 2463; 2495; 32; 2488; 2509; 2453; 2509; 2480; 2495; 2474; 2509;
   2463; 32; 2482; 2495; 2454; 2497; 2472; 32; 40; 2476; 2494; 2434; 2482;
   2494; 32; 2476; 2494; 32; 2439; 2434; 2480; 2503; 2460; 2495; 41; 32;
   8212; 32; 2438; 2478; 2495; 32; 2488; 2503; 2463; 2495; 32; 2469; 2503;
   2453; 2503; 32; 2447; 2453; 2463; 2495; 32; 2459; 2476; 2495; 32; 2476;
   2494; 2472; 2495; 2479; 2492; 2503; 32; 2470; 2503; 2476; 2404].

Definition start (env : Env) (update : StartUpdate) : M unit :=
  let chat_id := start_chat_id update in
  outside (CallReplyText chat_id (welcome_msg (start_first_name update)))
    (fun n => reply_text env n chat_id
                (welcome_msg (start_first_name update))) ;;;
  outside (CallReplyText chat_id ask_msg)
    (fun n => reply_text env n chat_id ask_msg) ;;;
  ret tt.

(** ** Start-up configuration (lines 17-23 and 33-37) *)

(** [os.getenv(name, "")] on the process environment. *)
Definition getenv (environ : gmap string pystr) (name : string) : pystr :=
  default [] (environ !! name).

(** The module's top level up to the client: both credentials are read, an
    empty one raises, then the client is built from the key; [make_client]
    stands for importing and calling [OpenAI(api_key=...)].  The result is
    the pair of the token and the key the bot runs with. *)
Definition load_config (environ : gmap string pystr)
  (make_client : pystr -> outcome unit) : outcome (pystr * pystr) :=
  let TELEGRAM_BOT_TOKEN := getenv environ "TELEGRAM_BOT_TOKEN" in
  let OPENAI_API_KEY := getenv environ "OPENAI_API_KEY" in
  match TELEGRAM_BOT_TOKEN with
  | [] =>
      Raise (Exn RuntimeError
               (lit "TELEGRAM_BOT_TOKEN is missing. Set it in environment or .env"))
  | _ :: _ =>
      match OPENAI_API_KEY with
      | [] =>
          Raise (Exn RuntimeError
                   (lit "OPENAI_API_KEY is missing. Set it in environment or .env"))
      | _ :: _ =>
          match make_client OPENAI_API_KEY with
          | Return _ => Return (TELEGRAM_BOT_TOKEN, OPENAI_API_KEY)
          | Raise e =>
              Raise (Exn RuntimeError
                       (lit "Failed to initialize OpenAI client: " ++ exc_str e))
          end
      end
  end.

(** ** More predicates on calls and worlds *)

Definition is_generate (c : call) : bool :=
  match c with
  | CallImagesGenerate _ => true
  | _ => false
  end.

(** A call to the Telegram platform. *)
Definition is_telegram (c : call) : bool :=
  match c with
  | CallImagesGenerate _ | CallWriteTempFile _ => false
  | _ => true
  end.

(** The user has nothing to retire: no session, no stored id, or the id
    [0]. *)
Definition untracked (w : World) (user_id : Z) : Prop :=
  truthy_int (last_message w user_id) = false.

(** Every character of the text is whitespace. *)
Definition all_space (s : pystr) : Prop := Forall (fun c => py_isspace c = true) s.

(** ** More sample environments *)

(** An environment whose provider answers with inline base64 data. *)
Definition env_b64 : Env :=
  sample_env
    (Return {| data := Some [ {| url := None;
                                 b64_json := Some (lit "iVBORw0KGgo=") |} ] |}).

(** The sends raise. *)
Definition flood : exn :=
  Exn (OtherException (lit "RetryAfter")) (lit "Flood control exceeded").

Definition env_send_fails (provider : outcome ImagesResponse) : Env :=
  {| uuid4 := uuid4 (sample_env provider);
     images_generate := images_generate (sample_env provider);
     b64decode := b64decode (sample_env provider);
     write_temp_png := write_temp_png (sample_env provider);
     delete_message := delete_message (sample_env provider);
     reply_photo _ _ _ _ _ := Raise flood;
     reply_text := reply_text (sample_env provider);
     get_file := get_file (sample_env provider);
     edit_reply_markup := edit_reply_markup (sample_env provider);
     answer := answer (sample_env provider) |}.

(** A world with no session at all. *)
Definition w_empty : World :=
  {| UserSessions := ∅; calls := []; debug_log := []; uuid_draws := 0 |}.

Definition upd_blank : ScriptUpdate :=
  {| upd_user_id := 7; upd_chat_id := 100; upd_text := Some (lit "   ") |}.

Definition sample_photo_message : Message :=
  {| message_id := 55; msg_chat_id := 100;
     photo := [ {| file_id := lit "small" |}; {| file_id := lit "large" |} ] |}.

(** The base64 decoder rejects its input. *)
Definition bad_padding : exn :=
  Exn (OtherException (lit "binascii.Error")) (lit "Incorrect padding").

Definition env_bad_b64 : Env :=
  {| uuid4 := uuid4 env_b64;
     images_generate := images_generate env_b64;
     b64decode _ := Raise bad_padding;
     write_temp_png := write_temp_png env_b64;
     delete_message := delete_message env_b64;
     reply_photo := reply_photo env_b64;
     reply_text := reply_text env_b64;
     get_file := get_file env_b64;
     edit_reply_markup := edit_reply_markup env_b64;
     answer := answer env_b64 |}.

(** Telegram cannot resolve the file. *)
Definition env_no_file : Env :=
  {| uuid4 := uuid4 env_url;
     images_generate := images_generate env_url;
     b64decode := b64decode env_url;
     write_temp_png := write_temp_png env_url;
     delete_message := delete_message env_url;
     reply_photo := reply_photo env_url;
     reply_text := reply_text env_url;
     get_file _ _ := Raise flood;
     edit_reply_markup := edit_reply_markup env_url;
     answer := answer env_url |}.

(** The world a handler runs [respond] in: the chat is recorded and the
    previous message retired. *)
Definition after_retire (env : Env) (user_id chat_id : Z) (w : World) : World :=
  snd (record_chat_and_retire env user_id chat_id w).

(** The world after the acknowledgement of a button ([query.answer()]). *)
Definition acknowledged (env : Env) (w : World) : World :=
  snd (outside CallAnswer (answer env) w).

(** The script [handle_script] works on. *)
Definition script_of (update : ScriptUpdate) : pystr :=
  strip (or_empty (upd_text update)).

(** The provider answers with a URL, but the photo cannot be sent. *)
Definition env_photo_fails : Env :=
  env_send_fails
    (Return {| data := Some [ {| url := Some (lit "https://img/1.png");
                                 b64_json := None |} ] |}).

(** The notice cannot be sent either. *)
Definition env_all_fail : Env :=
  {| uuid4 := uuid4 env_rate_limited;
     images_generate := images_generate env_rate_limited;
     b64decode := b64decode env_rate_limited;
     write_temp_png := write_temp_png env_rate_limited;
     delete_message := delete_message env_rate_limited;
     reply_photo _ _ _ _ _ := Raise flood;
     reply_text _ _ _ := Raise flood;
     get_file := get_file env_rate_limited;
     edit_reply_markup := edit_reply_markup env_rate_limited;
     answer _ := Raise flood |}.

Definition start_alice : StartUpdate :=
  {| start_chat_id := 100; start_first_name := lit "Alice" |}.

(** ** The pattern of the button handler (line 213) *)

(** The constructs of regular expressions the pattern uses: the start
    anchor, a literal character, the empty expression, a sequence and an
    alternation. *)
Inductive regex :=
  | ReStart
  | ReChar (c : N)
  | ReEmpty
  | ReSeq (r1 r2 : regex)
  | ReAlt (r1 r2 : regex).

(** Backtracking match of [r] at the current position; [at_start] tells
    whether that position is the start of the text, [k] is what has to match
    after [r]. *)
Fixpoint re_match_here (r : regex) (at_start : bool) (s : pystr)
  (k : bool -> pystr -> bool) : bool :=
  match r with
  | ReStart => at_start && k at_start s
  | ReChar c =>
      match s with
      | x :: s' => (x =? c) && k false s'
      | [] => false
      end
  | ReEmpty => k at_start s
  | ReSeq r1 r2 =>
      re_match_here r1 at_start s (fun b s' => re_match_here r2 b s' k)
  | ReAlt r1 r2 => re_match_here r1 at_start s k || re_match_here r2 at_start s k
  end.

(** [re.match(r, s)] is truthy: [r] matches at the start of [s]. *)
Definition re_match (r : regex) (s : pystr) : bool :=
  re_match_here r true s (fun _ _ => true).

(** The characters of a literal, in sequence. *)
Fixpoint re_literal (s : pystr) : regex :=
  match s with
  | [] => ReEmpty
  | c :: s' => ReSeq (ReChar c) (re_literal s')
  end.

(** The pattern is the raw string of the nine characters
    [^], [r], [e], [g], [e], [n], backslash, backslash, [|].  In a regular
    expression the two backslashes are one literal backslash (code 92) and
    the bar that follows is an alternation, with nothing on its right. *)
Definition regen_pattern : regex :=
  ReAlt (ReSeq ReStart (re_literal (lit "regen" ++ [92]))) ReEmpty.

(** * Properties *)

(** ** Language detector *)

Lemma in_bangla_block_spec (c : N) :
  in_bangla_block c = true <-> 0x0980 <= c <= 0x09FF.
Proof.
  unfold in_bangla_block. rewrite andb_true_iff, !N.leb_le. tauto.
Qed.

Lemma re_search_bangla_spec (s : pystr) :
  re_search_bangla s = true <-> exists c, In c s /\ 0x0980 <= c <= 0x09FF.
Proof.
  unfold re_search_bangla. rewrite existsb_exists.
  split; intros [c [Hin Hc]]; exists c; split; auto;
    now apply in_bangla_block_spec.
Qed.

Lemma contains_bangla_search (text : option pystr) :
  contains_bangla text <-> re_search_bangla (or_empty text) = true.
Proof.
  rewrite re_search_bangla_spec. unfold contains_bangla. split.
  - intros (s & c & -> & Hin & Hc). exists c. auto.
  - intros (c & Hin & Hc). destruct text as [s|]; simpl in Hin; [|tauto].
    exists s, c. auto.
Qed.

(** C5: [detect_language] is a total function of its (possibly absent)
    text; it answers [bangla] exactly when the text holds a code point of
    the Bangla block U+0980..U+09FF, and [english] exactly when it holds
    none, the absent and the empty text included. *)
Theorem detect_language_classifies (text : option pystr) :
  (detect_language text = lit "bangla" <-> contains_bangla text)
  /\ (detect_language text = lit "english" <-> ~ contains_bangla text)
  /\ detect_language None = lit "english"
  /\ detect_language (Some []) = lit "english".
Proof.
  rewrite contains_bangla_search. unfold detect_language.
  destruct (re_search_bangla (or_empty text)); repeat split;
    try discriminate; try reflexivity; try tauto;
    intros; try discriminate; congruence.
Qed.

(** ** Regeneration payload *)

Lemma split_first_app (a b : pystr) :
  ~ In SEP a -> split_first SEP (a ++ SEP :: b) = Some (a, b).
Proof.
  induction a as [|c a IH]; intros Hnot; simpl.
  - reflexivity.
  - destruct (N.eqb_spec c SEP) as [->|_].
    + exfalso. apply Hnot. now left.
    + rewrite IH; [reflexivity|]. intros Hin. apply Hnot. now right.
Qed.

Lemma split_first_none (s : pystr) :
  ~ In SEP s -> split_first SEP s = None.
Proof.
  induction s as [|c s IH]; intros Hnot; simpl; [reflexivity|].
  destruct (N.eqb_spec c SEP) as [->|_].
  - exfalso. apply Hnot. now left.
  - rewrite IH; [reflexivity|]. intros Hin. apply Hnot. now right.
Qed.

Lemma split_first_some (s : pystr) :
  In SEP s ->
  exists a b, split_first SEP s = Some (a, b) /\ s = a ++ SEP :: b.
Proof.
  induction s as [|c s IH]; intros Hin; simpl; [destruct Hin|].
  destruct (N.eqb_spec c SEP) as [->|Hne].
  - exists [], s. auto.
  - destruct Hin as [Heq|Hin]; [congruence|].
    destruct (IH Hin) as (a & b & -> & ->). exists (c :: a), b. auto.
Qed.

Lemma split1_encode (kind script : pystr) :
  ~ In SEP kind -> split1 (encode kind script) = [kind; script].
Proof.
  intros Hk. unfold split1, encode. now rewrite split_first_app.
Qed.

(** C6: for a kind and a prompt without the separator, decoding the encoded
    payload gives back the kind and the prompt. *)
Theorem decode_encode_roundtrip (kind P : pystr) :
  ~ In SEP kind -> ~ In SEP P -> decode (encode kind P) = (kind, P).
Proof.
  intros Hk _. unfold decode, regen_script. simpl or_empty.
  now rewrite split1_encode.
Qed.

Lemma decode_encode_roundtrip_witness :
  ~ In SEP (lit "regen") /\ ~ In SEP (lit "a red bicycle")
  /\ decode (encode (lit "regen") (lit "a red bicycle"))
     = (lit "regen", lit "a red bicycle").
Proof.
  assert (Hk : ~ In SEP (lit "regen")).
  { simpl. unfold SEP. intros H. repeat (destruct H as [H|H]; [discriminate H|]). exact H. }
  assert (Hp : ~ In SEP (lit "a red bicycle")).
  { simpl. unfold SEP. intros H. repeat (destruct H as [H|H]; [discriminate H|]). exact H. }
  split; [exact Hk|]. split; [exact Hp|].
  exact (decode_encode_roundtrip (lit "regen") (lit "a red bicycle") Hk Hp).
Defined.

(** C3, as stated, fails: the prompt [a|b] comes back whole from the payload
    [regen|a|b], not cut at its separator. *)
Lemma decode_truncates_counterexample :
  In SEP (lit "a|b")
  /\ snd (decode (encode (lit "regen") (lit "a|b"))) = lit "a|b"
  /\ before_first_sep (lit "a|b") = lit "a"
  /\ snd (decode (encode (lit "regen") (lit "a|b")))
     <> before_first_sep (lit "a|b").
Proof.
  split; [simpl; unfold SEP; tauto|].
  split; [reflexivity|]. split; [reflexivity|]. discriminate.
Qed.

(** C3, amended: for a kind without the separator and a prompt that contains
    it, decoding the encoded payload gives back the whole prompt, the part
    after its first separator included; nothing is cut. *)
Theorem decode_keeps_whole_prompt (kind P : pystr) :
  ~ In SEP kind -> In SEP P ->
  snd (decode (encode kind P)) = P
  /\ snd (decode (encode kind P)) <> before_first_sep P.
Proof.
  intros Hk Hp. unfold decode, regen_script. simpl or_empty.
  rewrite split1_encode by assumption. simpl. split; [reflexivity|].
  destruct (split_first_some P Hp) as (a & b & Hs & HP).
  unfold before_first_sep. rewrite Hs. intros Heq.
  apply (f_equal (@length N)) in Heq. rewrite HP in Heq at 1.
  rewrite length_app in Heq. simpl in Heq. lia.
Qed.

Lemma decode_keeps_whole_prompt_witness :
  ~ In SEP (lit "regen") /\ In SEP (lit "a|b")
  /\ snd (decode (encode (lit "regen") (lit "a|b"))) = lit "a|b"
  /\ snd (decode (encode (lit "regen") (lit "a|b")))
     <> before_first_sep (lit "a|b").
Proof.
  assert (Hk : ~ In SEP (lit "regen")).
  { simpl. unfold SEP. intros H. repeat (destruct H as [H|H]; [discriminate H|]). exact H. }
  assert (Hp : In SEP (lit "a|b")).
  { simpl. unfold SEP. tauto. }
  split; [exact Hk|]. split; [exact Hp|].
  exact (decode_keeps_whole_prompt (lit "regen") (lit "a|b") Hk Hp).
Defined.

(** ** Calls added by a computation *)

Section Emits.

Context (P : call -> Prop).

Lemma emits_ret {A} (a : A) : emits P (ret a).
Proof. intros w. exists []. simpl. rewrite app_nil_r. auto. Qed.

Lemma emits_raise {A} (e : exn) : emits P (@raise A e).
Proof. intros w. exists []. simpl. rewrite app_nil_r. auto. Qed.

Lemma emits_lift {A} (o : outcome A) : emits P (lift o).
Proof. intros w. exists []. simpl. rewrite app_nil_r. auto. Qed.

Lemma emits_logger_debug msg : emits P (logger_debug msg).
Proof. intros w. exists []. simpl. rewrite app_nil_r. auto. Qed.

Lemma emits_ensure_session user_id : emits P (ensure_session user_id).
Proof. intros w. exists []. simpl. rewrite app_nil_r. auto. Qed.

Lemma emits_session_setitem user_id key value :
  emits P (session_setitem user_id key value).
Proof.
  intros w. exists []. unfold session_setitem.
  destruct (UserSessions w !! user_id); simpl; rewrite app_nil_r; auto.
Qed.

Lemma emits_variation_suffix env : emits P (variation_suffix env).
Proof. intros w. exists []. simpl. rewrite app_nil_r. auto. Qed.

Lemma emits_outside {A} c (f : nat -> outcome A) : P c -> emits P (outside c f).
Proof. intros Hc w. exists [c]. simpl. auto. Qed.

Lemma emits_bind {A B} (m : M A) (f : A -> M B) :
  emits P m -> (forall a, emits P (f a)) -> emits P (bind m f).
Proof.
  intros Hm Hf w. unfold bind. destruct (Hm w) as (n1 & E1 & F1).
  destruct (m w) as [[a|e] w1]; simpl in *.
  - destruct (Hf a w1) as (n2 & E2 & F2). exists (n1 ++ n2).
    rewrite E2, E1, app_assoc. split; [reflexivity|]. now apply Forall_app.
  - exists n1. auto.
Qed.

Lemma emits_try_except {A} (m : M A) (h : exn -> M A) :
  emits P m -> (forall e, emits P (h e)) -> emits P (try_except m h).
Proof.
  intros Hm Hh w. unfold try_except. destruct (Hm w) as (n1 & E1 & F1).
  destruct (m w) as [[a|e] w1]; simpl in *.
  - exists n1. auto.
  - destruct (Hh e w1) as (n2 & E2 & F2). exists (n1 ++ n2).
    rewrite E2, E1, app_assoc. split; [reflexivity|]. now apply Forall_app.
Qed.

End Emits.

Ltac emits_step :=
  first
    [ apply emits_ret | apply emits_raise | apply emits_lift
    | apply emits_logger_debug | apply emits_ensure_session
    | apply emits_session_setitem | apply emits_variation_suffix
    | apply emits_outside; solve [simpl; auto]
    | apply emits_bind; [|intros]
    | apply emits_try_except; [|intros]
    | match goal with
      | |- emits _ (match ?x with _ => _ end) => destruct x
      end ].

Lemma generate_image_url_emits env prompt :
  emits (fun c => is_delete c = false /\ is_send c = false)
    (generate_image_url env prompt).
Proof.
  unfold generate_image_url, generate_image_url_body.
  repeat emits_step.
Qed.

Lemma emits_weaken (P Q : call -> Prop) {A} (m : M A) :
  (forall c, P c -> Q c) -> emits P m -> emits Q m.
Proof.
  intros HPQ Hm w. destruct (Hm w) as (n & E & F). exists n.
  split; [exact E|]. rewrite Forall_forall in *. auto.
Qed.

Lemma add_download_button_emits env msg script :
  emits (fun c => is_delete c = false /\ is_send c = false)
    (add_download_button env msg script).
Proof. unfold add_download_button. repeat emits_step. Qed.

Lemma respond_emits env user_id chat_id script :
  emits (fun c => is_delete c = false) (respond env user_id chat_id script).
Proof.
  unfold respond, notify_failure, deliver.
  apply emits_try_except; [|intros; repeat emits_step].
  apply emits_bind.
  - eapply emits_weaken; [|apply generate_image_url_emits]. simpl. tauto.
  - intros. apply emits_bind; [emits_step|intros].
    apply emits_bind; [emits_step|intros].
    eapply emits_weaken; [|apply add_download_button_emits]. simpl. tauto.
Qed.

(** ** Computations that never read the debug log *)

Lemma same_but_log_refl w : same_but_log w w.
Proof. repeat split. Qed.

Lemma log_blind_ret {A} (a : A) : log_blind (ret a).
Proof. intros w1 w2 H. auto. Qed.

Lemma log_blind_raise {A} (e : exn) : log_blind (@raise A e).
Proof. intros w1 w2 H. auto. Qed.

Lemma log_blind_lift {A} (o : outcome A) : log_blind (lift o).
Proof. intros w1 w2 H. auto. Qed.

Lemma log_blind_logger_debug msg : log_blind (logger_debug msg).
Proof. intros w1 w2 (Hs & Hc & Hu). repeat split; simpl; auto. Qed.

Lemma log_blind_ensure_session user_id : log_blind (ensure_session user_id).
Proof.
  intros w1 w2 (Hs & Hc & Hu). repeat split; simpl; auto. now rewrite Hs.
Qed.

Lemma log_blind_session_setitem user_id key value :
  log_blind (session_setitem user_id key value).
Proof.
  intros w1 w2 (Hs & Hc & Hu). unfold session_setitem. rewrite Hs.
  destruct (UserSessions w2 !! user_id); repeat split; simpl; auto.
Qed.

Lemma log_blind_variation_suffix env : log_blind (variation_suffix env).
Proof.
  intros w1 w2 (Hs & Hc & Hu). unfold variation_suffix. simpl.
  rewrite Hu. repeat split; simpl; auto.
Qed.

Lemma log_blind_outside {A} c (f : nat -> outcome A) : log_blind (outside c f).
Proof.
  intros w1 w2 (Hs & Hc & Hu). unfold outside. simpl. rewrite Hc.
  repeat split; simpl; auto.
Qed.

Lemma log_blind_bind {A B} (m : M A) (f : A -> M B) :
  log_blind m -> (forall a, log_blind (f a)) -> log_blind (bind m f).
Proof.
  intros Hm Hf w1 w2 H. unfold bind. destruct (Hm w1 w2 H) as [Ho Hw].
  destruct (m w1) as [o1 w1'], (m w2) as [o2 w2']. simpl in *. subst o2.
  destruct o1 as [a|e]; [now apply Hf|]. auto.
Qed.

Lemma log_blind_try_except {A} (m : M A) (h : exn -> M A) :
  log_blind m -> (forall e, log_blind (h e)) -> log_blind (try_except m h).
Proof.
  intros Hm Hh w1 w2 H. unfold try_except. destruct (Hm w1 w2 H) as [Ho Hw].
  destruct (m w1) as [o1 w1'], (m w2) as [o2 w2']. simpl in *. subst o2.
  destruct o1 as [a|e]; [auto|now apply Hh].
Qed.

Ltac log_blind_step :=
  first
    [ apply log_blind_ret | apply log_blind_raise | apply log_blind_lift
    | apply log_blind_logger_debug | apply log_blind_ensure_session
    | apply log_blind_session_setitem | apply log_blind_variation_suffix
    | apply log_blind_outside
    | apply log_blind_bind; [|intros]
    | apply log_blind_try_except; [|intros]
    | match goal with
      | |- log_blind (match ?x with _ => _ end) => destruct x
      end ].

Lemma respond_log_blind env user_id chat_id script :
  log_blind (respond env user_id chat_id script).
Proof.
  unfold respond, deliver, notify_failure, generate_image_url,
    generate_image_url_body, add_download_button.
  repeat log_blind_step.
Qed.

(** ** The helpers, step by step *)

Ltac unfold_monad :=
  unfold try_except, bind, outside, logger_debug, ret, raise, lift,
    variation_suffix, ensure_session, set_sessions in *.

Lemma delete_last_returns env user_id w :
  fst (delete_last_message_if_any env user_id w) = Return tt.
Proof.
  unfold delete_last_message_if_any. unfold_monad.
  destruct (truthy_int _ && truthy_int _); [|reflexivity].
  destruct (_ !! "last_msg_id"%string); [|reflexivity].
  destruct (_ !! "chat_id"%string); [|reflexivity].
  simpl. destruct (delete_message env _ _ _) as [[]|e]; reflexivity.
Qed.

Lemma delete_last_frame env user_id w :
  UserSessions (snd (delete_last_message_if_any env user_id w)) = UserSessions w
  /\ uuid_draws (snd (delete_last_message_if_any env user_id w)) = uuid_draws w.
Proof.
  unfold delete_last_message_if_any. unfold_monad.
  destruct (truthy_int _ && truthy_int _); [|auto].
  destruct (_ !! "last_msg_id"%string); [|auto].
  destruct (_ !! "chat_id"%string); [|auto].
  simpl. destruct (delete_message env _ _ _) as [[]|e]; auto.
Qed.

Lemma truthy_int_some z : z <> 0%Z -> truthy_int (Some z) = true.
Proof. intros H. simpl. now destruct (Z.eqb_spec z 0). Qed.

Lemma delete_last_calls_tracked env user_id w d m c :
  UserSessions w !! user_id = Some d ->
  d !! "last_msg_id"%string = Some m -> d !! "chat_id"%string = Some c ->
  m <> 0%Z -> c <> 0%Z ->
  calls (snd (delete_last_message_if_any env user_id w))
  = calls w ++ [CallDeleteMessage c m].
Proof.
  intros Hd Hm Hc Hm0 Hc0. unfold delete_last_message_if_any. unfold_monad.
  rewrite Hd. simpl. rewrite Hm, Hc, !truthy_int_some by assumption. simpl.
  destruct (delete_message env _ _ _) as [[]|e]; reflexivity.
Qed.

Lemma delete_last_calls env user_id w :
  exists new,
    calls (snd (delete_last_message_if_any env user_id w)) = calls w ++ new
    /\ Forall (fun c => is_send c = false) new.
Proof.
  unfold delete_last_message_if_any. unfold_monad.
  destruct (truthy_int _ && truthy_int _);
    [|exists []; simpl; rewrite app_nil_r; auto].
  destruct (_ !! "last_msg_id"%string) as [m|];
    [|exists []; simpl; rewrite app_nil_r; auto].
  destruct (_ !! "chat_id"%string) as [c|];
    [|exists []; simpl; rewrite app_nil_r; auto].
  exists [CallDeleteMessage c m]. simpl.
  destruct (delete_message env _ _ _) as [[]|e]; simpl; auto.
Qed.

(** The delete answer only shows in the debug log. *)
Lemma delete_last_same_but_log env del user_id w :
  same_but_log
    (snd (delete_last_message_if_any (with_delete_message env del) user_id w))
    (snd (delete_last_message_if_any env user_id w)).
Proof.
  unfold delete_last_message_if_any. unfold_monad.
  destruct (truthy_int _ && truthy_int _); [|apply same_but_log_refl].
  destruct (_ !! "last_msg_id"%string); [|apply same_but_log_refl].
  destruct (_ !! "chat_id"%string); [|apply same_but_log_refl].
  simpl. destruct (del _ _ _) as [[]|e1];
    destruct (delete_message env _ _ _) as [[]|e2]; repeat split.
Qed.

Lemma record_chat_and_retire_run env user_id chat_id w :
  record_chat_and_retire env user_id chat_id w
  = delete_last_message_if_any env user_id
      (set_sessions (recorded w user_id chat_id) w).
Proof.
  unfold record_chat_and_retire, session_setitem. unfold_monad. simpl.
  rewrite lookup_insert_eq. unfold recorded. now rewrite insert_insert_eq.
Qed.

Lemma record_chat_and_retire_returns env user_id chat_id w :
  fst (record_chat_and_retire env user_id chat_id w) = Return tt.
Proof. rewrite record_chat_and_retire_run. apply delete_last_returns. Qed.

Lemma record_chat_and_retire_frame env user_id chat_id w :
  UserSessions (snd (record_chat_and_retire env user_id chat_id w))
  = recorded w user_id chat_id
  /\ uuid_draws (snd (record_chat_and_retire env user_id chat_id w))
     = uuid_draws w.
Proof.
  rewrite record_chat_and_retire_run.
  destruct (delete_last_frame env user_id
              (set_sessions (recorded w user_id chat_id) w)) as [Hs Hu].
  rewrite Hs, Hu. split; reflexivity.
Qed.

Lemma record_chat_and_retire_tracked env user_id chat_id w m :
  tracks w user_id m -> chat_id <> 0%Z ->
  calls (snd (record_chat_and_retire env user_id chat_id w))
  = calls w ++ [CallDeleteMessage chat_id m].
Proof.
  intros (d & Hd & Hm & Hm0) Hc0. rewrite record_chat_and_retire_run.
  erewrite delete_last_calls_tracked; [reflexivity| | | |exact Hm0|exact Hc0].
  - simpl. unfold recorded. apply lookup_insert_eq.
  - rewrite Hd. simpl. rewrite lookup_insert_ne by discriminate. exact Hm.
  - apply lookup_insert_eq.
Qed.

Lemma record_chat_and_retire_calls env user_id chat_id w :
  exists new,
    calls (snd (record_chat_and_retire env user_id chat_id w)) = calls w ++ new
    /\ Forall (fun c => is_send c = false) new.
Proof.
  rewrite record_chat_and_retire_run.
  apply (delete_last_calls env user_id
           (set_sessions (recorded w user_id chat_id) w)).
Qed.

Lemma record_chat_and_retire_same_but_log env del user_id chat_id w :
  same_but_log
    (snd (record_chat_and_retire (with_delete_message env del)
            user_id chat_id w))
    (snd (record_chat_and_retire env user_id chat_id w)).
Proof.
  rewrite !record_chat_and_retire_run. apply delete_last_same_but_log.
Qed.

(** Both handlers run [respond] in the world the retiring step leaves. *)
Lemma handle_script_run env update w :
  handle_script env update w
  = respond env (upd_user_id update) (upd_chat_id update)
      (strip (or_empty (upd_text update)))
      (snd (record_chat_and_retire env (upd_user_id update)
              (upd_chat_id update) w)).
Proof.
  unfold handle_script, bind.
  pose proof (record_chat_and_retire_returns env (upd_user_id update)
                (upd_chat_id update) w) as H.
  destruct (record_chat_and_retire _ _ _ w) as [o w1]. simpl in H.
  now subst o.
Qed.

Lemma on_regen_button_run env query w :
  on_regen_button env query w
  = match answer env (length (calls w)) with
    | Return _ =>
        respond env (query_user_id query) (query_chat_id query)
          (regen_script (query_data query))
          (snd (record_chat_and_retire env (query_user_id query)
                  (query_chat_id query) (snd (outside CallAnswer (answer env) w))))
    | Raise e => (Raise e, snd (outside CallAnswer (answer env) w))
    end.
Proof.
  unfold on_regen_button, bind at 1. simpl.
  destruct (answer env (length (calls w))) as [[]|e]; [|reflexivity].
  unfold bind.
  match goal with
  | |- context [record_chat_and_retire ?e ?u ?c ?w'] =>
      pose proof (record_chat_and_retire_returns e u c w') as H;
      destruct (record_chat_and_retire e u c w') as [o w1]
  end.
  simpl in H. now subst o.
Qed.

(** ** The generator, step by step *)

Lemma generate_image_url_run env prompt w :
  exists rest,
    calls (snd (generate_image_url env prompt w))
    = calls w ++ CallImagesGenerate (upstream_request env prompt w) :: rest
    /\ Forall (fun c => is_delete c = false /\ is_send c = false) rest
    /\ UserSessions (snd (generate_image_url env prompt w)) = UserSessions w
    /\ uuid_draws (snd (generate_image_url env prompt w)) = S (uuid_draws w).
Proof.
  unfold generate_image_url, generate_image_url_body, upstream_request.
  unfold_monad. simpl.
  destruct (images_generate env _ _) as [resp|e]; simpl;
    [|exists []; auto].
  destruct (preferred_url resp); simpl;
    [exists []; auto|].
  destruct (first_item resp) as [item|e]; simpl; [|exists []; auto].
  destruct (truthy_str (b64_json item)); simpl; [|exists []; auto].
  destruct (b64decode env _) as [raw|e]; simpl; [|exists []; auto].
  exists [CallWriteTempFile raw].
  destruct (write_temp_png env _ _); simpl; rewrite <- app_assoc; auto.
Qed.

Lemma generate_image_url_outcome env prompt w :
  (exists ref, fst (generate_image_url env prompt w) = Return ref)
  \/ (exists reason,
        fst (generate_image_url env prompt w) = Raise (Exn RuntimeError reason)).
Proof.
  unfold generate_image_url, try_except.
  destruct (generate_image_url_body env prompt w) as [[ref|e] w']; simpl; eauto.
Qed.

Lemma generate_image_url_upstream_error env prompt w e :
  upstream_answer env prompt w = Raise e ->
  fst (generate_image_url env prompt w) = Raise (Exn RuntimeError (exc_str e)).
Proof.
  unfold upstream_answer, upstream_request, generate_image_url,
    generate_image_url_body. unfold_monad. simpl. intros ->. reflexivity.
Qed.

Lemma generate_image_url_no_image env prompt w resp :
  upstream_answer env prompt w = Return resp ->
  carries_url resp = false -> carries_b64 resp = false ->
  fst (generate_image_url env prompt w)
  = Raise (Exn RuntimeError (no_image_reason resp)).
Proof.
  unfold upstream_answer, upstream_request, generate_image_url,
    generate_image_url_body. unfold_monad. simpl. intros -> Hu Hb.
  unfold carries_url, carries_b64, preferred_url, first_item,
    no_image_reason in *.
  destruct (data resp) as [[|item items]|]; simpl; try reflexivity.
  rewrite Hu. simpl. rewrite Hb. reflexivity.
Qed.

Lemma respond_run env user_id chat_id script w :
  respond env user_id chat_id script w
  = match generate_image_url env script w with
    | (Return image, wg) =>
        try_except (deliver env user_id chat_id script image)
          (fun e => notify_failure env user_id chat_id script (exc_str e)) wg
    | (Raise e, wg) => notify_failure env user_id chat_id script (exc_str e) wg
    end.
Proof.
  unfold respond, try_except, bind.
  destruct (generate_image_url env script w) as [[image|e] wg]; reflexivity.
Qed.

(** ** The image generator *)

(** C1, as stated, fails: when the provider raises, so does the generator;
    the error leaves it as an exception, it is not a returned value. *)
Lemma generate_image_url_raises_counterexample :
  fst (generate_image_url env_rate_limited (lit "a red bicycle") w_tracked)
  = Raise (Exn RuntimeError (lit "rate limit exceeded")).
Proof. reflexivity. Qed.

(** C1, amended: the generator either returns an image reference or raises
    a [RuntimeError]; an error of the remote call is caught inside the
    generator and raised again as a [RuntimeError] carrying the upstream
    error's message text; that exception does leave the generator, and it is
    the handlers' [except] clause that catches it and answers with the
    failure notice. *)
Theorem generate_image_url_raises_runtime_error env prompt w :
  ((exists ref, fst (generate_image_url env prompt w) = Return ref)
   \/ (exists reason,
         fst (generate_image_url env prompt w)
         = Raise (Exn RuntimeError reason)))
  /\ (forall e,
        upstream_answer env prompt w = Raise e ->
        fst (generate_image_url env prompt w)
        = Raise (Exn RuntimeError (exc_str e)))
  /\ (forall e user_id chat_id,
        fst (generate_image_url env prompt w) = Raise e ->
        respond env user_id chat_id prompt w
        = notify_failure env user_id chat_id prompt (exc_str e)
            (snd (generate_image_url env prompt w))).
Proof.
  split; [apply generate_image_url_outcome|].
  split; [apply generate_image_url_upstream_error|].
  intros e user_id chat_id He. rewrite respond_run.
  destruct (generate_image_url env prompt w) as [[image|e'] wg];
    simpl in *; congruence.
Qed.

Lemma generate_image_url_raises_runtime_error_witness :
  upstream_answer env_rate_limited (lit "a red bicycle") w_tracked
  = Raise rate_limited
  /\ fst (generate_image_url env_rate_limited (lit "a red bicycle") w_tracked)
     = Raise (Exn RuntimeError (exc_str rate_limited)).
Proof.
  split; [reflexivity|].
  apply (proj1 (proj2 (generate_image_url_raises_runtime_error
                         env_rate_limited (lit "a red bicycle") w_tracked))).
  reflexivity.
Defined.

(** C10: whatever the shape of the provider's response, when its first item
    (if there is one) has neither a usable URL nor inline base64 data, the
    empty and the missing data list included, the generator fails with a
    [RuntimeError]: it returns no reference, writes no file, and lets no
    other exception through. *)
Theorem response_without_image_fails env prompt w resp :
  upstream_answer env prompt w = Return resp ->
  carries_url resp = false ->
  carries_b64 resp = false ->
  fst (generate_image_url env prompt w)
  = Raise (Exn RuntimeError (no_image_reason resp))
  /\ calls (snd (generate_image_url env prompt w))
     = calls w ++ [CallImagesGenerate (upstream_request env prompt w)].
Proof.
  intros Hresp Hu Hb. split.
  - now apply generate_image_url_no_image.
  - revert Hresp.
    unfold upstream_answer, upstream_request, generate_image_url,
      generate_image_url_body. unfold_monad. simpl. intros ->.
    unfold carries_url, carries_b64, preferred_url, first_item in *.
    destruct (data resp) as [[|item items]|]; simpl; try reflexivity.
    rewrite Hu. simpl. rewrite Hb. reflexivity.
Qed.

Lemma response_without_image_fails_witness :
  upstream_answer env_empty_response (lit "a red bicycle") w_tracked
  = Return {| data := Some [] |}
  /\ carries_url {| data := Some [] |} = false
  /\ carries_b64 {| data := Some [] |} = false
  /\ fst (generate_image_url env_empty_response (lit "a red bicycle") w_tracked)
     = Raise (Exn RuntimeError (lit "list index out of range")).
Proof.
  split; [reflexivity|]. split; [reflexivity|]. split; [reflexivity|].
  exact (proj1 (response_without_image_fails env_empty_response
                  (lit "a red bicycle") w_tracked {| data := Some [] |}
                  eq_refl eq_refl eq_refl)).
Defined.

(** C8: two successive calls of the generator with the same prompt [P] each
    send a request whose prompt is [P] followed by the variation suffix with
    that call's UUID; when the two UUIDs differ, the two requests differ,
    and both prompts start with [P]. *)
Theorem successive_requests_differ env P w :
  let w1 := snd (generate_image_url env P w) in
  let w2 := snd (generate_image_url env P w1) in
  let token1 := uuid4 env (uuid_draws w) in
  let token2 := uuid4 env (uuid_draws w1) in
  token1 <> token2 ->
  exists req1 req2 rest1 rest2,
    calls w1 = calls w ++ CallImagesGenerate req1 :: rest1
    /\ calls w2 = calls w1 ++ CallImagesGenerate req2 :: rest2
    /\ req_prompt req1 = P ++ [NL; NL] ++ lit "# variation:" ++ token1
    /\ req_prompt req2 = P ++ [NL; NL] ++ lit "# variation:" ++ token2
    /\ req1 <> req2.
Proof.
  intros w1 w2 token1 token2 Hne.
  destruct (generate_image_url_run env P w) as (rest1 & E1 & _).
  destruct (generate_image_url_run env P w1) as (rest2 & E2 & _).
  exists (upstream_request env P w), (upstream_request env P w1), rest1, rest2.
  split; [exact E1|]. split; [exact E2|].
  split; [reflexivity|]. split; [reflexivity|].
  intros Heq. apply (f_equal req_prompt) in Heq. simpl in Heq.
  apply app_inv_head in Heq. simpl in Heq. injection Heq as Heq.
  exact (Hne Heq).
Qed.

Lemma successive_requests_differ_witness :
  uuid4 env_url 0 <> uuid4 env_url 1
  /\ exists req1 req2 rest1 rest2,
       calls (snd (generate_image_url env_url (lit "a red bicycle") w_tracked))
       = calls w_tracked ++ CallImagesGenerate req1 :: rest1
       /\ calls (snd (generate_image_url env_url (lit "a red bicycle")
                        (snd (generate_image_url env_url (lit "a red bicycle")
                                w_tracked))))
          = calls (snd (generate_image_url env_url (lit "a red bicycle")
                          w_tracked))
            ++ CallImagesGenerate req2 :: rest2
       /\ req_prompt req1
          = lit "a red bicycle" ++ [NL; NL] ++ lit "# variation:"
            ++ uuid4 env_url 0
       /\ req_prompt req2
          = lit "a red bicycle" ++ [NL; NL] ++ lit "# variation:"
            ++ uuid4 env_url 1
       /\ req1 <> req2.
Proof.
  assert (Hne : uuid4 env_url 0 <> uuid4 env_url 1) by (vm_compute; discriminate).
  split; [exact Hne|].
  exact (successive_requests_differ env_url (lit "a red bicycle") w_tracked Hne).
Defined.

(** ** The end of a handler, step by step *)

Lemma notify_failure_calls env user_id chat_id script reason w :
  calls (snd (notify_failure env user_id chat_id script reason w))
  = calls w ++ [CallReplyText chat_id (error_msg script reason)].
Proof.
  unfold notify_failure, session_setitem. unfold_monad. simpl.
  destruct (reply_text env _ _ _) as [sent|e]; simpl; [|reflexivity].
  destruct (_ !! user_id); reflexivity.
Qed.

Lemma after_generate_emits env user_id chat_id script image :
  emits (fun c => is_delete c = false)
    (try_except (deliver env user_id chat_id script image)
       (fun e => notify_failure env user_id chat_id script (exc_str e))).
Proof.
  unfold deliver, notify_failure.
  apply emits_try_except; [|intros; repeat emits_step].
  apply emits_bind; [emits_step|intros].
  apply emits_bind; [emits_step|intros].
  eapply emits_weaken; [|apply add_download_button_emits]. simpl. tauto.
Qed.

Lemma respond_calls env user_id chat_id script w :
  exists rest,
    calls (snd (respond env user_id chat_id script w))
    = calls w ++ CallImagesGenerate (upstream_request env script w) :: rest
    /\ Forall (fun c => is_delete c = false) rest.
Proof.
  rewrite respond_run.
  destruct (generate_image_url_run env script w) as (rest & E & F & _).
  assert (Frest : Forall (fun c => is_delete c = false) rest).
  { rewrite Forall_forall in *. intros c Hc. now apply F. }
  destruct (generate_image_url env script w) as [[image|e] wg]; simpl in E.
  - destruct (after_generate_emits env user_id chat_id script image wg)
      as (new & E' & F').
    exists (rest ++ new). rewrite E', E, <- app_assoc. simpl.
    split; [reflexivity|]. now apply Forall_app.
  - rewrite notify_failure_calls, E, <- app_assoc. simpl.
    exists (rest ++ [CallReplyText chat_id (error_msg script (exc_str e))]).
    split; [reflexivity|]. apply Forall_app. split; [exact Frest|].
    repeat constructor.
Qed.

(** When the generator raises, the handler's only further call is the
    notice. *)
Lemma respond_failure_calls env user_id chat_id script w e :
  fst (generate_image_url env script w) = Raise e ->
  exists before,
    calls (snd (respond env user_id chat_id script w))
    = calls w ++ before
      ++ [CallReplyText chat_id (error_msg script (exc_str e))]
    /\ Forall (fun c => is_send c = false) before.
Proof.
  intros He. rewrite respond_run.
  destruct (generate_image_url_run env script w) as (rest & E & F & _).
  destruct (generate_image_url env script w) as [[image|e'] wg];
    simpl in *; [discriminate|]. injection He as ->.
  rewrite notify_failure_calls, E, <- app_assoc.
  exists (CallImagesGenerate (upstream_request env script w) :: rest).
  split; [reflexivity|]. constructor; [reflexivity|].
  rewrite Forall_forall in *. intros c Hc. now apply F.
Qed.

Lemma error_msg_shape script reason :
  (contains_bangla (Some script) ->
   error_msg script reason = bangla_template ++ reason)
  /\ (~ contains_bangla (Some script) ->
      error_msg script reason = english_template ++ reason)
  /\ (exists rest, error_msg script reason = CROSS_MARK :: rest ++ reason).
Proof.
  unfold error_msg. rewrite contains_bangla_search. unfold detect_language.
  destruct (re_search_bangla (or_empty (Some script))).
  - split; [reflexivity|]. split; [congruence|].
    exists (tl bangla_template). reflexivity.
  - split; [discriminate|]. split; [reflexivity|].
    exists (tl english_template). reflexivity.
Qed.

(** ** The handlers *)

(** C4, as stated, fails: for the text [ a], with a leading space, the
    generator is called with [a], not with the raw text. *)
Lemma handle_script_raw_text_counterexample :
  upd_text upd_padded = Some (lit " a")
  /\ generator_called_with env_url (lit "a")
       (calls (snd (handle_script env_url upd_padded w_tracked)))
  /\ ~ generator_called_with env_url (lit " a")
         (calls (snd (handle_script env_url upd_padded w_tracked))).
Proof.
  split; [reflexivity|].
  remember (calls (snd (handle_script env_url upd_padded w_tracked))) as cs
    eqn:E.
  vm_compute in E. subst cs. split.
  - exists 0%nat. vm_compute. tauto.
  - intros [n Hin]. simpl in Hin.
    repeat (destruct Hin as [Hin|Hin]; [discriminate Hin|]). exact Hin.
Qed.

(** C4, amended: in the new-prompt flow the generator is called with the
    message text stripped of its leading and trailing whitespace (the empty
    string when the message has no text); the request it sends carries that
    text followed by the variation suffix, and only the retiring of the
    previous message comes before it. *)
Theorem handle_script_generates_stripped_text env update w :
  let script := strip (or_empty (upd_text update)) in
  let w1 :=
    snd (record_chat_and_retire env (upd_user_id update)
           (upd_chat_id update) w) in
  handle_script env update w
  = respond env (upd_user_id update) (upd_chat_id update) script w1
  /\ exists retire rest,
       calls (snd (handle_script env update w))
       = calls w ++ retire
         ++ CallImagesGenerate (upstream_request env script w1) :: rest
       /\ Forall (fun c => is_send c = false) retire
       /\ req_prompt (upstream_request env script w1)
          = script ++ [NL; NL] ++ lit "# variation:"
            ++ uuid4 env (uuid_draws w).
Proof.
  intros script w1. split; [apply handle_script_run|].
  rewrite handle_script_run. fold script. fold w1.
  destruct (respond_calls env (upd_user_id update) (upd_chat_id update)
              script w1) as (rest & E & _).
  destruct (record_chat_and_retire_calls env (upd_user_id update)
              (upd_chat_id update) w) as (retire & E1 & F1).
  destruct (record_chat_and_retire_frame env (upd_user_id update)
              (upd_chat_id update) w) as [_ Hu].
  fold w1 in E1, Hu. exists retire, rest.
  split; [now rewrite E, E1, <- app_assoc|]. split; [exact F1|].
  unfold upstream_request. simpl. now rewrite Hu.
Qed.

(** C7: when the generator fails in either handler, the handler sends
    exactly one message to the user, a text, as its last call: the reason
    [str(e)] of the failure appended, unchanged, to the Bangla template when
    the prompt holds a Bangla code point and to the English template
    otherwise; both templates start with the cross mark; and the reason of a
    failed remote call is the upstream error's own text. *)
Theorem generation_failure_notice env w :
  (forall update e,
      let script := strip (or_empty (upd_text update)) in
      let w1 :=
        snd (record_chat_and_retire env (upd_user_id update)
               (upd_chat_id update) w) in
      fst (generate_image_url env script w1) = Raise e ->
      exists before,
        calls (snd (handle_script env update w))
        = calls w ++ before
          ++ [CallReplyText (upd_chat_id update)
                (error_msg script (exc_str e))]
        /\ Forall (fun c => is_send c = false) before)
  /\ (forall query e,
        let script := regen_script (query_data query) in
        let w1 :=
          snd (record_chat_and_retire env (query_user_id query)
                 (query_chat_id query)
                 (snd (outside CallAnswer (answer env) w))) in
        answer env (length (calls w)) = Return tt ->
        fst (generate_image_url env script w1) = Raise e ->
        exists before,
          calls (snd (on_regen_button env query w))
          = calls w ++ before
            ++ [CallReplyText (query_chat_id query)
                  (error_msg script (exc_str e))]
          /\ Forall (fun c => is_send c = false) before)
  /\ (forall script reason,
        (contains_bangla (Some script) ->
         error_msg script reason = bangla_template ++ reason)
        /\ (~ contains_bangla (Some script) ->
            error_msg script reason = english_template ++ reason)
        /\ (exists rest, error_msg script reason = CROSS_MARK :: rest ++ reason))
  /\ (forall prompt w' e0,
        upstream_answer env prompt w' = Raise e0 ->
        fst (generate_image_url env prompt w')
        = Raise (Exn RuntimeError (exc_str e0))).
Proof.
  split; [|split; [|split]].
  - intros update e script w1 He. rewrite handle_script_run.
    fold script. fold w1.
    destruct (respond_failure_calls env (upd_user_id update)
                (upd_chat_id update) script w1 e He) as (before & E & F).
    destruct (record_chat_and_retire_calls env (upd_user_id update)
                (upd_chat_id update) w) as (retire & E1 & F1).
    fold w1 in E1. exists (retire ++ before).
    split; [now rewrite E, E1, <- !app_assoc|]. now apply Forall_app.
  - intros query e script w1 Ha He. rewrite on_regen_button_run, Ha.
    fold script. fold w1.
    destruct (respond_failure_calls env (query_user_id query)
                (query_chat_id query) script w1 e He) as (before & E & F).
    destruct (record_chat_and_retire_calls env (query_user_id query)
                (query_chat_id query)
                (snd (outside CallAnswer (answer env) w)))
      as (retire & E1 & F1).
    fold w1 in E1. simpl in E1. exists (CallAnswer :: retire ++ before).
    split.
    + rewrite E, E1, <- !app_assoc. simpl. now rewrite <- app_assoc.
    + constructor; [reflexivity|]. now apply Forall_app.
  - apply error_msg_shape.
  - apply generate_image_url_upstream_error.
Qed.

Lemma generation_failure_notice_witness :
  fst (generate_image_url env_rate_limited (strip bangla_bicycle)
         (snd (record_chat_and_retire env_rate_limited 7 100 w_tracked)))
  = Raise (Exn RuntimeError (lit "rate limit exceeded"))
  /\ exists before,
       calls (snd (handle_script env_rate_limited upd_bangla w_tracked))
       = calls w_tracked ++ before
         ++ [CallReplyText 100
               (error_msg (strip bangla_bicycle) (lit "rate limit exceeded"))]
       /\ Forall (fun c => is_send c = false) before.
Proof.
  assert (He : fst (generate_image_url env_rate_limited (strip bangla_bicycle)
                      (snd (record_chat_and_retire env_rate_limited 7 100
                              w_tracked)))
               = Raise (Exn RuntimeError (lit "rate limit exceeded")))
    by (vm_compute; reflexivity).
  split; [exact He|].
  exact (proj1 (generation_failure_notice env_rate_limited w_tracked)
           upd_bangla (Exn RuntimeError (lit "rate limit exceeded")) He).
Defined.

(** The scenario of the specification: a Bangla prompt, a rate-limited
    provider; the previous message is retired, the notice is sent in Bangla
    and its id is tracked. *)
Example scenario_bangla_rate_limit :
  let w' := snd (handle_script env_rate_limited upd_bangla w_tracked) in
  calls w'
  = [ CallDeleteMessage 100 41;
      CallImagesGenerate
        (upstream_request env_rate_limited bangla_bicycle w_tracked);
      CallReplyText 100 (bangla_template ++ lit "rate limit exceeded") ]
  /\ last_message w' 7 = Some 1002%Z
  /\ debug_log w'
     = [lit "Could not delete previous message: Message to delete not found"].
Proof. vm_compute. repeat split. Qed.

(** C2: for a user with a tracked message, [handle_script] makes exactly one
    delete request, for that message in the current chat, as its first call,
    so before anything is sent; [on_regen_button] does the same right after
    acknowledging the button (and does nothing more when the acknowledgement
    raises).  Whether the delete succeeds or raises changes nothing but the
    debug log: the handler's outcome, its calls and the session store are
    the same for every answer to the delete request. *)
Theorem retire_once_before_send env w m :
  (forall update,
      tracks w (upd_user_id update) m -> upd_chat_id update <> 0%Z ->
      exists post,
        calls (snd (handle_script env update w))
        = calls w ++ CallDeleteMessage (upd_chat_id update) m :: post
        /\ Forall (fun c => is_delete c = false) post)
  /\ (forall query,
        tracks w (query_user_id query) m -> query_chat_id query <> 0%Z ->
        match answer env (length (calls w)) with
        | Return _ =>
            exists post,
              calls (snd (on_regen_button env query w))
              = calls w ++ CallAnswer
                  :: CallDeleteMessage (query_chat_id query) m :: post
              /\ Forall (fun c => is_delete c = false) post
        | Raise e =>
            fst (on_regen_button env query w) = Raise e
            /\ calls (snd (on_regen_button env query w))
               = calls w ++ [CallAnswer]
        end)
  /\ (forall del update,
        same_visible (handle_script (with_delete_message env del) update w)
          (handle_script env update w))
  /\ (forall del query,
        same_visible (on_regen_button (with_delete_message env del) query w)
          (on_regen_button env query w)).
Proof.
  split; [|split; [|split]].
  - intros update Ht Hc. rewrite handle_script_run.
    destruct (respond_emits env (upd_user_id update) (upd_chat_id update)
                (strip (or_empty (upd_text update)))
                (snd (record_chat_and_retire env (upd_user_id update)
                        (upd_chat_id update) w))) as (post & E & F).
    rewrite (record_chat_and_retire_tracked env _ _ w m Ht Hc) in E.
    exists post. split; [|exact F]. now rewrite E, <- app_assoc.
  - intros query Ht Hc. rewrite on_regen_button_run.
    destruct (answer env (length (calls w))) as [[]|e]; [|split; reflexivity].
    match goal with
    | |- context [respond env ?u ?c ?s ?w1] =>
        destruct (respond_emits env u c s w1) as (post & E & F)
    end.
    rewrite (record_chat_and_retire_tracked env _ _ _ m) in E;
      [|exact Ht|exact Hc].
    exists post. split; [|exact F]. rewrite E. simpl.
    now rewrite <- !app_assoc.
  - intros del update. rewrite !handle_script_run.
    apply (respond_log_blind env). apply record_chat_and_retire_same_but_log.
  - intros del query. rewrite !on_regen_button_run. simpl.
    destruct (answer env (length (calls w))) as [[]|e].
    + apply (respond_log_blind env).
      apply record_chat_and_retire_same_but_log.
    + split; [reflexivity|apply same_but_log_refl].
Qed.

Lemma retire_once_before_send_witness :
  tracks w_tracked 7 41 /\ 100%Z <> 0%Z
  /\ exists post,
       calls (snd (handle_script env_url upd_bicycle w_tracked))
       = calls w_tracked ++ CallDeleteMessage 100 41 :: post
       /\ Forall (fun c => is_delete c = false) post.
Proof.
  assert (Ht : tracks w_tracked 7 41).
  { exists {[ "chat_id"%string := 100%Z; "last_msg_id"%string := 41%Z ]}.
    split; [reflexivity|]. split; [reflexivity|]. discriminate. }
  assert (Hc : 100%Z <> 0%Z) by discriminate.
  split; [exact Ht|]. split; [exact Hc|].
  exact (proj1 (retire_once_before_send env_url w_tracked 41) upd_bicycle Ht Hc).
Defined.

(** ** The session store *)

Lemma add_download_button_frame env msg script w :
  fst (add_download_button env msg script w) = Return tt
  /\ UserSessions (snd (add_download_button env msg script w)) = UserSessions w.
Proof.
  unfold add_download_button. unfold_monad.
  destruct (last (photo msg)) as [largest|]; simpl; [|auto].
  destruct (get_file env _ _) as [file|e]; simpl; [|auto].
  destruct (edit_reply_markup env _ _ _ _) as [[]|e]; simpl; auto.
Qed.

Lemma notify_failure_sessions env user_id chat_id script reason w :
  UserSessions (snd (notify_failure env user_id chat_id script reason w))
  = UserSessions w
  \/ exists sent d,
       sent_by env chat_id sent
       /\ UserSessions w !! user_id = Some d
       /\ UserSessions (snd (notify_failure env user_id chat_id script reason w))
          = <[user_id := <["last_msg_id"%string := message_id sent]> d]>
              (UserSessions w).
Proof.
  unfold notify_failure, session_setitem. unfold_monad. simpl.
  destruct (reply_text env _ _ _) as [sent|e] eqn:Hsent; simpl; [|auto].
  destruct (UserSessions w !! user_id) as [d|] eqn:Hd; simpl; [|auto].
  right. exists sent, d. split; [|auto]. right. eauto.
Qed.

Lemma after_generate_sessions env user_id chat_id script image w :
  let w' :=
    snd (try_except (deliver env user_id chat_id script image)
           (fun e => notify_failure env user_id chat_id script (exc_str e)) w) in
  UserSessions w' = UserSessions w
  \/ exists sent d,
       sent_by env chat_id sent
       /\ UserSessions w !! user_id = Some d
       /\ UserSessions w'
          = <[user_id := <["last_msg_id"%string := message_id sent]> d]>
              (UserSessions w).
Proof.
  unfold deliver, session_setitem. unfold_monad. simpl.
  destruct (reply_photo env _ _ _ _ _) as [sent|e] eqn:Hsent.
  - destruct (UserSessions w !! user_id) as [d|] eqn:Hd.
    + match goal with
      | |- context [add_download_button env sent script ?w1] =>
          destruct (add_download_button_frame env sent script w1) as [Ho Hs];
          destruct (add_download_button env sent script w1) as [o w2]
      end.
      simpl in Ho, Hs. subst o. simpl. right. exists sent, d.
      split; [left; eauto|]. split; [reflexivity|exact Hs].
    + match goal with
      | |- context [notify_failure env user_id chat_id script ?r ?w1] =>
          destruct (notify_failure_sessions env user_id chat_id script r w1)
            as [H|(s & d & Hby & Hd' & H)]
      end.
      * left. exact H.
      * simpl in Hd'. congruence.
  - match goal with
    | |- context [notify_failure env user_id chat_id script ?r ?w1] =>
        destruct (notify_failure_sessions env user_id chat_id script r w1)
          as [H|(s & d & Hby & Hd' & H)]
    end.
    + left. exact H.
    + right. exists s, d. auto.
Qed.

Lemma respond_sessions env user_id chat_id script w :
  UserSessions (snd (respond env user_id chat_id script w)) = UserSessions w
  \/ exists sent d,
       sent_by env chat_id sent
       /\ UserSessions w !! user_id = Some d
       /\ UserSessions (snd (respond env user_id chat_id script w))
          = <[user_id := <["last_msg_id"%string := message_id sent]> d]>
              (UserSessions w).
Proof.
  rewrite respond_run.
  destruct (generate_image_url_run env script w) as (rest & _ & _ & Hs & _).
  destruct (generate_image_url env script w) as [[image|e] wg]; simpl in Hs;
    rewrite <- Hs.
  - apply after_generate_sessions.
  - apply notify_failure_sessions.
Qed.

(** C9: retiring the previous message leaves the whole session store as it
    was, so every user's chat id and tracked message id, whether the delete
    succeeds, raises or is skipped, and it never raises itself; afterwards
    the rest of the handler either leaves the store alone or replaces the
    user's tracked id once, by the id of a message that a send returned. *)
Theorem retire_last_keeps_sessions env user_id w :
  let w' := snd (delete_last_message_if_any env user_id w) in
  UserSessions w' = UserSessions w
  /\ (forall u,
        last_message w' u = last_message w u
        /\ session_chat w' u = session_chat w u)
  /\ fst (delete_last_message_if_any env user_id w) = Return tt
  /\ (forall chat_id script,
        let w2 := snd (respond env user_id chat_id script w') in
        UserSessions w2 = UserSessions w'
        \/ exists sent d,
             sent_by env chat_id sent
             /\ UserSessions w' !! user_id = Some d
             /\ UserSessions w2
                = <[user_id := <["last_msg_id"%string := message_id sent]> d]>
                    (UserSessions w')).
Proof.
  intros w'. destruct (delete_last_frame env user_id w) as [Hs _].
  fold w' in Hs. split; [exact Hs|]. split.
  - intros u. unfold last_message, session_chat. now rewrite Hs.
  - split; [apply delete_last_returns|].
    intros chat_id script. apply respond_sessions.
Qed.

(** * Further properties of the code *)

(** ** Stripping *)

Lemma lstrip_split (s : pystr) :
  exists l, s = l ++ lstrip s /\ all_space l.
Proof.
  induction s as [|c s IH]; simpl.
  - exists []. split; [reflexivity|constructor].
  - destruct (py_isspace c) eqn:Hc.
    + destruct IH as (l & E & F). exists (c :: l). split.
      * simpl. now rewrite <- E.
      * now constructor.
    + exists []. split; [reflexivity|constructor].
Qed.

Lemma lstrip_head (s : pystr) c rest :
  lstrip s = c :: rest -> py_isspace c = false.
Proof.
  induction s as [|a s IH]; simpl; [discriminate|].
  destruct (py_isspace a) eqn:Ha; [exact IH|].
  intros H. injection H as -> _. exact Ha.
Qed.

Lemma lstrip_fixed (s : pystr) :
  (forall c rest, s = c :: rest -> py_isspace c = false) -> lstrip s = s.
Proof.
  destruct s as [|c s]; simpl; [reflexivity|].
  intros H. now rewrite (H c s eq_refl).
Qed.

Lemma lstrip_all_space (s : pystr) : all_space s -> lstrip s = [].
Proof.
  induction 1 as [|c s Hc _ IH]; simpl; [reflexivity|]. now rewrite Hc.
Qed.

Lemma all_space_rev (s : pystr) : all_space s -> all_space (rev s).
Proof.
  unfold all_space. rewrite !Forall_forall. intros H c Hc. apply H.
  apply list_elem_of_In. apply list_elem_of_In in Hc. now apply in_rev.
Qed.

Lemma rstrip_split (s : pystr) :
  exists r, s = rstrip s ++ r /\ all_space r.
Proof.
  unfold rstrip. destruct (lstrip_split (rev s)) as (l & E & F).
  exists (rev l). split; [|now apply all_space_rev].
  rewrite <- rev_app_distr, <- E. now rewrite rev_involutive.
Qed.

Lemma rstrip_last (s : pystr) init c :
  rstrip s = init ++ [c] -> py_isspace c = false.
Proof.
  unfold rstrip. intros H. apply (f_equal (@rev N)) in H.
  rewrite rev_involutive, rev_app_distr in H. simpl in H.
  now apply lstrip_head in H.
Qed.

Lemma rstrip_fixed (s : pystr) :
  (forall init c, s = init ++ [c] -> py_isspace c = false) -> rstrip s = s.
Proof.
  intros H. unfold rstrip. rewrite lstrip_fixed; [apply rev_involutive|].
  intros c rest E. apply (H (rev rest) c).
  rewrite <- (rev_involutive s), E. reflexivity.
Qed.

Lemma rstrip_nil : rstrip [] = [].
Proof. reflexivity. Qed.

Lemma strip_all_space (s : pystr) : all_space s -> strip s = [].
Proof. intros H. unfold strip. now rewrite lstrip_all_space. Qed.

(** X23: the script a handler computes with [strip] is the text without a
    whitespace-only prefix and a whitespace-only suffix; it neither starts
    nor ends with a whitespace character, and stripping it again changes
    nothing. *)
Theorem strip_spec (text : pystr) :
  (exists l r, text = l ++ strip text ++ r /\ all_space l /\ all_space r)
  /\ (forall c rest, strip text = c :: rest -> py_isspace c = false)
  /\ (forall init c, strip text = init ++ [c] -> py_isspace c = false)
  /\ strip (strip text) = strip text.
Proof.
  assert (Hhead : forall c rest,
             strip text = c :: rest -> py_isspace c = false).
  { intros c rest E. unfold strip in E.
    destruct (rstrip_split (lstrip text)) as (r & Er & _).
    rewrite E in Er. simpl in Er. now apply lstrip_head in Er. }
  assert (Hlast : forall init c,
             strip text = init ++ [c] -> py_isspace c = false).
  { intros init c E. unfold strip in E. now apply rstrip_last in E. }
  split; [|split; [exact Hhead|split; [exact Hlast|]]].
  - destruct (lstrip_split text) as (l & El & Fl).
    destruct (rstrip_split (lstrip text)) as (r & Er & Fr).
    exists l, r. unfold strip. rewrite <- Er. auto.
  - unfold strip at 1. rewrite (lstrip_fixed (strip text) Hhead).
    now apply rstrip_fixed.
Qed.

(** ** Regeneration payload, further *)

Lemma regen_has_no_separator : ~ In SEP (lit "regen").
Proof.
  simpl. unfold SEP. intros H.
  repeat (destruct H as [H|H]; [discriminate H|]). exact H.
Qed.

Lemma regen_script_callback_data script :
  regen_script (Some (callback_data script)) = script.
Proof.
  unfold regen_script. simpl or_empty.
  change (callback_data script) with (encode (lit "regen") script).
  now rewrite (split1_encode _ _ regen_has_no_separator).
Qed.

(** X1: every regenerate button the bot attaches, in the keyboard sent with
    the photo and in the one with the download link, carries a payload from
    which [on_regen_button] recovers the script exactly, whatever the script
    contains, separators included. *)
Theorem regen_buttons_replay_script (script : pystr) (target : option pystr) :
  forall row label payload,
    In row (regen_keyboard script ++ download_keyboard script target) ->
    In (CallbackButton label payload) row ->
    regen_script (Some payload) = script.
Proof.
  intros row label payload Hrow Hb. simpl in Hrow.
  repeat (destruct Hrow as [<-|Hrow];
          [simpl in Hb; destruct Hb as [Hb|[]];
           first [ injection Hb as _ <-; apply regen_script_callback_data
                 | discriminate Hb ]|]).
  destruct Hrow.
Qed.

(** X2: a payload without the separator, and a missing payload, give the
    empty script: the handler goes on with an empty prompt, it does not
    fail. *)
Theorem regen_script_without_separator (payload : pystr) :
  ~ In SEP payload ->
  regen_script (Some payload) = [] /\ regen_script None = [].
Proof.
  intros H. unfold regen_script, split1. simpl or_empty.
  now rewrite (split_first_none _ H).
Qed.

Lemma regen_script_without_separator_witness :
  ~ In SEP (lit "regen")
  /\ regen_script (Some (lit "regen")) = [] /\ regen_script None = [].
Proof.
  split; [exact regen_has_no_separator|].
  exact (regen_script_without_separator (lit "regen") regen_has_no_separator).
Defined.

Lemma regen_buttons_replay_script_witness :
  In [CallbackButton (lit "GO") (callback_data (lit "a|b"))]
    (regen_keyboard (lit "a|b") ++ download_keyboard (lit "a|b") None)
  /\ In (CallbackButton (lit "GO") (callback_data (lit "a|b")))
       [CallbackButton (lit "GO") (callback_data (lit "a|b"))]
  /\ regen_script (Some (callback_data (lit "a|b"))) = lit "a|b".
Proof.
  assert (Hrow : In [CallbackButton (lit "GO") (callback_data (lit "a|b"))]
                   (regen_keyboard (lit "a|b")
                    ++ download_keyboard (lit "a|b") None))
    by (simpl; tauto).
  assert (Hb : In (CallbackButton (lit "GO") (callback_data (lit "a|b")))
                 [CallbackButton (lit "GO") (callback_data (lit "a|b"))])
    by (simpl; tauto).
  split; [exact Hrow|]. split; [exact Hb|].
  exact (regen_buttons_replay_script (lit "a|b") None _ _ _ Hrow Hb).
Defined.

(** ** The image generator, further *)

Ltac unfold_generator :=
  unfold upstream_answer, upstream_request, generate_image_url,
    generate_image_url_body, preferred_url, first_item;
  unfold_monad; simpl.

(** X4: when the first item of the response has a non-empty [url], the
    generator returns that URL after its single call to the provider; the
    item's [b64_json] is not looked at and no file is written. *)
Theorem generator_prefers_url env prompt w resp item items :
  upstream_answer env prompt w = Return resp ->
  data resp = Some (item :: items) ->
  truthy_str (url item) = true ->
  fst (generate_image_url env prompt w) = Return (or_empty (url item))
  /\ calls (snd (generate_image_url env prompt w))
     = calls w ++ [CallImagesGenerate (upstream_request env prompt w)].
Proof.
  unfold_generator. intros -> Hd Hu. simpl. rewrite Hd, Hu.
  destruct (url item) as [u|]; [|discriminate]. simpl. auto.
Qed.

Lemma generator_prefers_url_witness :
  upstream_answer env_url (lit "a red bicycle") w_tracked
  = Return {| data := Some [ {| url := Some (lit "https://img/1.png");
                                b64_json := None |} ] |}
  /\ fst (generate_image_url env_url (lit "a red bicycle") w_tracked)
     = Return (lit "https://img/1.png").
Proof.
  split; [reflexivity|].
  exact (proj1 (generator_prefers_url env_url (lit "a red bicycle") w_tracked
                  _ _ _ eq_refl eq_refl eq_refl)).
Defined.

(** X5: when the first item has no usable [url] but non-empty [b64_json],
    the data decodes and the temporary file is written, the generator
    returns the file's name; its calls are the provider request and then the
    one write of the decoded bytes. *)
Theorem generator_b64_fallback env prompt w resp item items b64 raw name :
  upstream_answer env prompt w = Return resp ->
  data resp = Some (item :: items) ->
  truthy_str (url item) = false ->
  b64_json item = Some b64 -> b64 <> [] ->
  b64decode env b64 = Return raw ->
  write_temp_png env (S (length (calls w))) raw = Return name ->
  fst (generate_image_url env prompt w) = Return name
  /\ calls (snd (generate_image_url env prompt w))
     = calls w ++ [CallImagesGenerate (upstream_request env prompt w);
                   CallWriteTempFile raw].
Proof.
  unfold_generator. intros -> Hd Hu Hb Hne Hraw Hname. simpl.
  rewrite Hd, Hu. simpl. rewrite Hb. destruct b64 as [|c b64]; [congruence|].
  simpl. rewrite Hraw. simpl.
  rewrite length_app, Nat.add_comm. simpl. rewrite Hname. simpl.
  split; [reflexivity|]. now rewrite <- app_assoc.
Qed.

Lemma generator_b64_fallback_witness :
  fst (generate_image_url env_b64 (lit "a red bicycle") w_tracked)
  = Return (lit "/tmp/tmpab12cd.png")
  /\ calls (snd (generate_image_url env_b64 (lit "a red bicycle") w_tracked))
     = calls w_tracked
       ++ [CallImagesGenerate
             (upstream_request env_b64 (lit "a red bicycle") w_tracked);
           CallWriteTempFile []].
Proof.
  refine (generator_b64_fallback env_b64 (lit "a red bicycle") w_tracked
            {| data := Some [ {| url := None;
                                 b64_json := Some (lit "iVBORw0KGgo=") |} ] |}
            {| url := None; b64_json := Some (lit "iVBORw0KGgo=") |} []
            (lit "iVBORw0KGgo=") [] (lit "/tmp/tmpab12cd.png")
            eq_refl eq_refl eq_refl eq_refl _ eq_refl eq_refl).
  discriminate.
Defined.

(** X6: in the fallback, a failure to decode the base64 data raises
    [RuntimeError] with the decoder's message and writes no file; a failure
    to write the temporary file raises [RuntimeError] with that error's
    message. *)
Theorem generator_b64_failures env prompt w resp item items b64 :
  upstream_answer env prompt w = Return resp ->
  data resp = Some (item :: items) ->
  truthy_str (url item) = false ->
  b64_json item = Some b64 -> b64 <> [] ->
  (forall e,
      b64decode env b64 = Raise e ->
      fst (generate_image_url env prompt w)
      = Raise (Exn RuntimeError (exc_str e))
      /\ calls (snd (generate_image_url env prompt w))
         = calls w ++ [CallImagesGenerate (upstream_request env prompt w)])
  /\ (forall raw e,
        b64decode env b64 = Return raw ->
        write_temp_png env (S (length (calls w))) raw = Raise e ->
        fst (generate_image_url env prompt w)
        = Raise (Exn RuntimeError (exc_str e))).
Proof.
  unfold_generator. intros -> Hd Hu Hb Hne. simpl.
  rewrite Hd, Hu. simpl. rewrite Hb. destruct b64 as [|c b64]; [congruence|].
  simpl. split.
  - intros e ->. simpl. auto.
  - intros raw e -> Hw. simpl.
    rewrite length_app, Nat.add_comm. simpl. rewrite Hw. reflexivity.
Qed.

Lemma generate_image_url_effect env prompt w :
  exists rest,
    calls (snd (generate_image_url env prompt w))
    = calls w ++ CallImagesGenerate (upstream_request env prompt w) :: rest
    /\ (rest = [] \/ exists raw, rest = [CallWriteTempFile raw])
    /\ UserSessions (snd (generate_image_url env prompt w)) = UserSessions w
    /\ debug_log (snd (generate_image_url env prompt w)) = debug_log w
    /\ uuid_draws (snd (generate_image_url env prompt w)) = S (uuid_draws w).
Proof.
  unfold generate_image_url, generate_image_url_body, upstream_request.
  unfold_monad. simpl.
  destruct (images_generate env _ _) as [resp|e]; simpl;
    [|exists []; auto 6].
  destruct (preferred_url resp); simpl; [exists []; auto 6|].
  destruct (first_item resp) as [item|e]; simpl; [|exists []; auto 6].
  destruct (truthy_str (b64_json item)); simpl; [|exists []; auto 6].
  destruct (b64decode env _) as [raw|e]; simpl; [|exists []; auto 6].
  exists [CallWriteTempFile raw].
  destruct (write_temp_png env _ _); simpl; rewrite <- app_assoc;
    repeat split; eauto.
Qed.

(** X7: whatever the provider answers, the generator draws exactly one UUID,
    makes the provider request as its first call and at most one more call,
    the write of a temporary file; it makes no call to Telegram and leaves
    the session store and the debug log as they were. *)
Theorem generator_frame env prompt w :
  exists rest,
    calls (snd (generate_image_url env prompt w))
    = calls w ++ CallImagesGenerate (upstream_request env prompt w) :: rest
    /\ (rest = [] \/ exists raw, rest = [CallWriteTempFile raw])
    /\ UserSessions (snd (generate_image_url env prompt w)) = UserSessions w
    /\ debug_log (snd (generate_image_url env prompt w)) = debug_log w
    /\ uuid_draws (snd (generate_image_url env prompt w)) = S (uuid_draws w).
Proof. apply generate_image_url_effect. Qed.

Lemma generator_b64_failures_witness :
  fst (generate_image_url env_bad_b64 (lit "a red bicycle") w_tracked)
  = Raise (Exn RuntimeError (lit "Incorrect padding"))
  /\ calls (snd (generate_image_url env_bad_b64 (lit "a red bicycle") w_tracked))
     = calls w_tracked
       ++ [CallImagesGenerate
             (upstream_request env_bad_b64 (lit "a red bicycle") w_tracked)].
Proof.
  assert (Hne : lit "iVBORw0KGgo=" <> []) by discriminate.
  exact (proj1 (generator_b64_failures env_bad_b64 (lit "a red bicycle")
                  w_tracked
                  {| data := Some [ {| url := None;
                                       b64_json := Some (lit "iVBORw0KGgo=") |} ] |}
                  {| url := None; b64_json := Some (lit "iVBORw0KGgo=") |} []
                  (lit "iVBORw0KGgo=") eq_refl eq_refl eq_refl eq_refl Hne)
           bad_padding eq_refl).
Defined.

(** ** The download button *)

Lemma add_download_button_effect env msg script w :
  fst (add_download_button env msg script w) = Return tt
  /\ UserSessions (snd (add_download_button env msg script w)) = UserSessions w
  /\ uuid_draws (snd (add_download_button env msg script w)) = uuid_draws w
  /\ exists new,
       calls (snd (add_download_button env msg script w)) = calls w ++ new
       /\ Forall (fun c => is_send c = false /\ is_delete c = false
                           /\ is_generate c = false) new.
Proof.
  unfold add_download_button. unfold_monad.
  destruct (last (photo msg)) as [largest|]; simpl.
  - destruct (get_file env _ _) as [file|e]; simpl.
    + destruct (edit_reply_markup env _ _ _ _) as [[]|e]; simpl;
        repeat split; eexists; rewrite <- app_assoc;
        (split; [reflexivity|repeat constructor]).
    + repeat split. eexists. split; [reflexivity|repeat constructor].
  - repeat split. exists []. rewrite app_nil_r. split; [reflexivity|constructor].
Qed.

(** X8: attaching the download button never raises, whatever Telegram
    answers; it sends no message, deletes none, asks for no image and leaves
    the session store alone; for a message without photo it does nothing at
    all. *)
Theorem add_download_button_is_harmless env msg script w :
  fst (add_download_button env msg script w) = Return tt
  /\ UserSessions (snd (add_download_button env msg script w)) = UserSessions w
  /\ (exists new,
         calls (snd (add_download_button env msg script w)) = calls w ++ new
         /\ Forall (fun c => is_send c = false /\ is_delete c = false
                             /\ is_generate c = false) new)
  /\ (photo msg = [] -> snd (add_download_button env msg script w) = w).
Proof.
  destruct (add_download_button_effect env msg script w) as (Ho & Hs & _ & Hc).
  split; [exact Ho|]. split; [exact Hs|]. split; [exact Hc|].
  intros Hp. unfold add_download_button. unfold_monad. rewrite Hp. simpl.
  reflexivity.
Qed.

(** X9: for a photo message whose largest size, the last one, Telegram
    resolves to a file, the button is attached by two calls: the lookup of
    that size's file, then an edit of the sent message's markup to the two
    regenerate buttons followed by a download button with the file's path;
    a failure of the edit is only written to the debug log. *)
Theorem add_download_button_attaches_link env msg script w largest file :
  last (photo msg) = Some largest ->
  get_file env (length (calls w)) (file_id largest) = Return file ->
  let keyboard :=
    regen_keyboard script
    ++ [[UrlButton ([11015; 65039] ++ lit " Download") (file_path file)]] in
  let edit_answer :=
    edit_reply_markup env (S (length (calls w))) (msg_chat_id msg)
      (message_id msg) keyboard in
  calls (snd (add_download_button env msg script w))
  = calls w ++ [CallGetFile (file_id largest);
                CallEditReplyMarkup (msg_chat_id msg) (message_id msg) keyboard]
  /\ debug_log (snd (add_download_button env msg script w))
     = match edit_answer with
       | Return _ => debug_log w
       | Raise e =>
           debug_log w
           ++ [lit "Failed to attach download button: " ++ exc_str e]
       end.
Proof.
  intros Hl Hf keyboard edit_answer. subst edit_answer.
  unfold add_download_button. unfold_monad. rewrite Hl. simpl. rewrite Hf.
  simpl. rewrite length_app, Nat.add_comm. simpl.
  change (download_keyboard script (file_path file)) with keyboard.
  destruct (edit_reply_markup env _ _ _ keyboard) as [[]|e]; simpl;
    rewrite <- app_assoc; auto.
Qed.

Lemma add_download_button_attaches_link_witness :
  last (photo sample_photo_message) = Some {| file_id := lit "large" |}
  /\ calls (snd (add_download_button env_url sample_photo_message
                   (lit "a red bicycle") w_tracked))
     = calls w_tracked
       ++ [CallGetFile (lit "large");
           CallEditReplyMarkup 100 55
             (regen_keyboard (lit "a red bicycle")
              ++ [[UrlButton ([11015; 65039] ++ lit " Download")
                     (Some (lit "https://t/file.png"))]])].
Proof.
  split; [reflexivity|].
  exact (proj1 (add_download_button_attaches_link env_url sample_photo_message
                  (lit "a red bicycle") w_tracked {| file_id := lit "large" |}
                  {| file_path := Some (lit "https://t/file.png") |}
                  eq_refl eq_refl)).
Defined.

(** X10: when Telegram cannot resolve the file, no edit is attempted: the
    lookup is the only call, the buttons sent with the photo stay as they
    are, and the error goes to the debug log. *)
Theorem add_download_button_lookup_failure env msg script w largest e :
  last (photo msg) = Some largest ->
  get_file env (length (calls w)) (file_id largest) = Raise e ->
  add_download_button env msg script w
  = (Return tt,
     {| UserSessions := UserSessions w;
        calls := calls w ++ [CallGetFile (file_id largest)];
        debug_log :=
          debug_log w ++ [lit "Failed to attach download button: " ++ exc_str e];
        uuid_draws := uuid_draws w |}).
Proof.
  intros Hl Hf. unfold add_download_button. unfold_monad. rewrite Hl. simpl.
  rewrite Hf. reflexivity.
Qed.

Lemma add_download_button_lookup_failure_witness :
  last (photo sample_photo_message) = Some {| file_id := lit "large" |}
  /\ get_file env_no_file (length (calls w_tracked)) (lit "large") = Raise flood
  /\ calls (snd (add_download_button env_no_file sample_photo_message
                   (lit "a red bicycle") w_tracked))
     = [CallGetFile (lit "large")].
Proof.
  split; [reflexivity|]. split; [reflexivity|].
  exact (f_equal (fun r => calls (snd r))
           (add_download_button_lookup_failure env_no_file sample_photo_message
              (lit "a red bicycle") w_tracked {| file_id := lit "large" |}
              flood eq_refl eq_refl)).
Defined.

(** ** Retiring the previous message, further *)

Lemma default_empty_lookup (o : option (gmap string Z)) (key : string) :
  default ∅ o !! key = o ≫= (fun d => d !! key).
Proof. destruct o; simpl; [reflexivity|apply lookup_empty]. Qed.

Lemma delete_last_skip env user_id w :
  truthy_int (last_message w user_id) = false
  \/ truthy_int (session_chat w user_id) = false ->
  delete_last_message_if_any env user_id w = (Return tt, w).
Proof.
  unfold last_message, session_chat, delete_last_message_if_any.
  rewrite !default_empty_lookup. intros [H|H]; rewrite H; simpl.
  - reflexivity.
  - now rewrite andb_false_r.
Qed.

(** X17: when the stored message id or the stored chat id is missing or
    [0], retiring does nothing at all: no call, no log entry, the world is
    the same. *)
Theorem retire_last_skips env user_id w :
  truthy_int (last_message w user_id) = false
  \/ truthy_int (session_chat w user_id) = false ->
  delete_last_message_if_any env user_id w = (Return tt, w).
Proof. apply delete_last_skip. Qed.

Lemma retire_last_skips_witness :
  (truthy_int (last_message w_empty 7) = false
   \/ truthy_int (session_chat w_empty 7) = false)
  /\ delete_last_message_if_any env_url 7 w_empty = (Return tt, w_empty).
Proof.
  assert (H : truthy_int (last_message w_empty 7) = false
              \/ truthy_int (session_chat w_empty 7) = false)
    by (left; reflexivity).
  split; [exact H|]. exact (retire_last_skips env_url 7 w_empty H).
Defined.

(** X18: when a message and a chat are stored, retiring makes the one delete
    request for them; a delete that returns leaves the debug log alone, a
    delete that raises adds exactly one entry, the fixed text followed by
    the error's message. *)
Theorem retire_last_logs_failure env user_id w m c :
  last_message w user_id = Some m -> session_chat w user_id = Some c ->
  m <> 0%Z -> c <> 0%Z ->
  calls (snd (delete_last_message_if_any env user_id w))
  = calls w ++ [CallDeleteMessage c m]
  /\ debug_log (snd (delete_last_message_if_any env user_id w))
     = match delete_message env (length (calls w)) c m with
       | Return _ => debug_log w
       | Raise e =>
           debug_log w
           ++ [lit "Could not delete previous message: " ++ exc_str e]
       end.
Proof.
  unfold last_message, session_chat, delete_last_message_if_any.
  rewrite !default_empty_lookup. intros -> -> Hm Hc.
  rewrite !truthy_int_some by assumption. unfold_monad. simpl.
  destruct (delete_message env _ c m) as [[]|e]; simpl; auto.
Qed.

Lemma retire_last_logs_failure_witness :
  last_message w_tracked 7 = Some 41%Z /\ session_chat w_tracked 7 = Some 100%Z
  /\ debug_log (snd (delete_last_message_if_any env_url 7 w_tracked))
     = [lit "Could not delete previous message: Message to delete not found"].
Proof.
  split; [reflexivity|]. split; [reflexivity|].
  refine (proj2 (retire_last_logs_failure env_url 7 w_tracked 41 100
                   eq_refl eq_refl _ _)); discriminate.
Defined.

(** ** The handlers, further *)

Lemma recorded_lookup w user_id chat_id :
  recorded w user_id chat_id !! user_id
  = Some (<["chat_id"%string := chat_id]> (default ∅ (UserSessions w !! user_id))).
Proof. apply lookup_insert_eq. Qed.

Lemma after_retire_sessions env user_id chat_id w :
  UserSessions (after_retire env user_id chat_id w) = recorded w user_id chat_id.
Proof. apply record_chat_and_retire_frame. Qed.

Lemma after_retire_last_message env user_id chat_id w :
  last_message (after_retire env user_id chat_id w) user_id
  = last_message w user_id.
Proof.
  unfold last_message. rewrite after_retire_sessions, recorded_lookup. simpl.
  rewrite lookup_insert_ne by discriminate. apply default_empty_lookup.
Qed.

Lemma after_retire_chat env user_id chat_id w :
  session_chat (after_retire env user_id chat_id w) user_id = Some chat_id.
Proof.
  unfold session_chat. rewrite after_retire_sessions, recorded_lookup. simpl.
  apply lookup_insert_eq.
Qed.

Lemma after_retire_other_users env user_id chat_id w u :
  u <> user_id ->
  UserSessions (after_retire env user_id chat_id w) !! u = UserSessions w !! u.
Proof.
  intros Hu. rewrite after_retire_sessions. unfold recorded.
  now rewrite lookup_insert_ne by congruence.
Qed.

(** What a run of [respond] does to the session of its user, when the user
    has a session. *)
Lemma respond_session_update env user_id chat_id script w d :
  UserSessions w !! user_id = Some d ->
  UserSessions (snd (respond env user_id chat_id script w)) = UserSessions w
  \/ exists sent,
       sent_by env chat_id sent
       /\ UserSessions (snd (respond env user_id chat_id script w))
          = <[user_id := <["last_msg_id"%string := message_id sent]> d]>
              (UserSessions w).
Proof.
  intros Hd.
  destruct (respond_sessions env user_id chat_id script w)
    as [H|(sent & d' & Hby & Hd' & H)]; [now left|].
  right. exists sent. split; [exact Hby|]. congruence.
Qed.

Lemma respond_keeps_chat env user_id chat_id script w c :
  session_chat w user_id = Some c ->
  session_chat (snd (respond env user_id chat_id script w)) user_id = Some c.
Proof.
  unfold session_chat. intros Hc.
  destruct (UserSessions w !! user_id) as [d|] eqn:Hd; [|discriminate].
  simpl in Hc.
  destruct (respond_session_update env user_id chat_id script w d Hd)
    as [H|(sent & _ & H)]; rewrite H.
  - now rewrite Hd.
  - rewrite lookup_insert_eq. simpl. now rewrite lookup_insert_ne by discriminate.
Qed.

Lemma respond_other_users env user_id chat_id script w u :
  u <> user_id ->
  UserSessions (snd (respond env user_id chat_id script w)) !! u
  = UserSessions w !! u.
Proof.
  intros Hu.
  destruct (respond_sessions env user_id chat_id script w)
    as [H|(sent & d & _ & _ & H)]; rewrite H; [reflexivity|].
  now rewrite lookup_insert_ne by congruence.
Qed.

Lemma on_regen_button_acknowledged env query w :
  answer env (length (calls w)) = Return tt ->
  on_regen_button env query w
  = respond env (query_user_id query) (query_chat_id query)
      (regen_script (query_data query))
      (after_retire env (query_user_id query) (query_chat_id query)
         (acknowledged env w)).
Proof. intros Ha. rewrite on_regen_button_run, Ha. reflexivity. Qed.

Lemma handle_script_after_retire env update w :
  handle_script env update w
  = respond env (upd_user_id update) (upd_chat_id update) (script_of update)
      (after_retire env (upd_user_id update) (upd_chat_id update) w).
Proof. apply handle_script_run. Qed.

(** X15: whatever happens in [handle_script], and in [on_regen_button] once
    the button is acknowledged, at the end the user's session exists and
    holds the chat of the update as its chat id, and the sessions of all
    other users are as before. *)
Theorem handlers_record_chat env w :
  (forall update,
      let w' := snd (handle_script env update w) in
      session_chat w' (upd_user_id update) = Some (upd_chat_id update)
      /\ forall u, u <> upd_user_id update ->
                   UserSessions w' !! u = UserSessions w !! u)
  /\ (forall query,
        answer env (length (calls w)) = Return tt ->
        let w' := snd (on_regen_button env query w) in
        session_chat w' (query_user_id query) = Some (query_chat_id query)
        /\ forall u, u <> query_user_id query ->
                     UserSessions w' !! u = UserSessions w !! u).
Proof.
  split.
  - intros update w'. subst w'. rewrite handle_script_after_retire. split.
    + apply respond_keeps_chat, after_retire_chat.
    + intros u Hu. rewrite respond_other_users by exact Hu.
      now apply after_retire_other_users.
  - intros query Ha w'. subst w'.
    rewrite (on_regen_button_acknowledged env query w Ha). split.
    + apply respond_keeps_chat, after_retire_chat.
    + intros u Hu. rewrite respond_other_users by exact Hu.
      now rewrite after_retire_other_users by exact Hu.
Qed.

Lemma handlers_record_chat_witness :
  answer env_url (length (calls w_empty)) = Return tt
  /\ session_chat (snd (on_regen_button env_url query_bicycle w_empty)) 7
     = Some 100%Z.
Proof.
  split; [reflexivity|].
  exact (proj1 (proj2 (handlers_record_chat env_url w_empty) query_bicycle
                  eq_refl)).
Defined.

Lemma notify_failure_run env user_id chat_id script reason w d :
  UserSessions w !! user_id = Some d ->
  notify_failure env user_id chat_id script reason w
  = let w1 :=
      {| UserSessions := UserSessions w;
         calls := calls w ++ [CallReplyText chat_id (error_msg script reason)];
         debug_log := debug_log w;
         uuid_draws := uuid_draws w |} in
    match reply_text env (length (calls w)) chat_id (error_msg script reason) with
    | Return sent =>
        (Return tt,
         set_sessions
           (<[user_id := <["last_msg_id"%string := message_id sent]> d]>
              (UserSessions w)) w1)
    | Raise e => (Raise e, w1)
    end.
Proof.
  intros Hd. unfold notify_failure, session_setitem. unfold_monad. simpl.
  destruct (reply_text env _ _ _) as [sent|e]; simpl; [|reflexivity].
  now rewrite Hd.
Qed.

Lemma generate_image_url_sessions env prompt w :
  UserSessions (snd (generate_image_url env prompt w)) = UserSessions w.
Proof.
  destruct (generate_image_url_run env prompt w) as (rest & _ & _ & Hs & _).
  exact Hs.
Qed.

Lemma respond_on_failure env user_id chat_id script w e :
  fst (generate_image_url env script w) = Raise e ->
  respond env user_id chat_id script w
  = notify_failure env user_id chat_id script (exc_str e)
      (snd (generate_image_url env script w)).
Proof.
  intros He. rewrite respond_run.
  destruct (generate_image_url env script w) as [[image|e'] wg];
    simpl in *; congruence.
Qed.

(** The world once the photo request is recorded. *)
Lemma respond_on_success env user_id chat_id script w d image :
  UserSessions w !! user_id = Some d ->
  fst (generate_image_url env script w) = Return image ->
  let wg := snd (generate_image_url env script w) in
  let photo_call := CallReplyPhoto chat_id image [] (regen_keyboard script) in
  match reply_photo env (length (calls wg)) chat_id image []
          (regen_keyboard script) with
  | Return sent =>
      fst (respond env user_id chat_id script w) = Return tt
      /\ UserSessions (snd (respond env user_id chat_id script w))
         = <[user_id := <["last_msg_id"%string := message_id sent]> d]>
             (UserSessions w)
      /\ exists more,
           calls (snd (respond env user_id chat_id script w))
           = calls wg ++ photo_call :: more
           /\ Forall (fun c => is_send c = false /\ is_delete c = false
                               /\ is_generate c = false) more
  | Raise e =>
      respond env user_id chat_id script w
      = notify_failure env user_id chat_id script (exc_str e)
          {| UserSessions := UserSessions wg;
             calls := calls wg ++ [photo_call];
             debug_log := debug_log wg;
             uuid_draws := uuid_draws wg |}
  end.
Proof.
  intros Hd Hi wg photo_call. subst wg photo_call. rewrite respond_run.
  pose proof (generate_image_url_sessions env script w) as Hs.
  destruct (generate_image_url env script w) as [[image'|e'] wg];
    simpl in *; [|discriminate]. injection Hi as ->.
  unfold deliver, session_setitem. unfold_monad. simpl.
  destruct (reply_photo env _ _ _ _ _) as [sent|e]; [|reflexivity].
  rewrite Hs, Hd.
  match goal with
  | |- context [add_download_button env sent script ?w1] =>
      destruct (add_download_button_effect env sent script w1)
        as (Ho & Hs' & _ & more & Hc & F);
      destruct (add_download_button env sent script w1) as [o w2]
  end.
  simpl in *. subst o. split; [reflexivity|]. split; [exact Hs'|].
  exists more. split; [|exact F]. simpl. now rewrite Hc, <- app_assoc.
Qed.

(** X11: in both handlers, when the generator returns an image and the
    photo is sent, the handler returns normally, the session tracks the id
    of the sent photo, the photo goes out with an empty caption and the two
    regenerate buttons, and what follows is neither a send, a delete nor
    another image request. *)
Theorem successful_send_is_tracked env w image sent :
  (forall update,
      let user_id := upd_user_id update in
      let chat_id := upd_chat_id update in
      let script := script_of update in
      let w1 := after_retire env user_id chat_id w in
      let wg := snd (generate_image_url env script w1) in
      fst (generate_image_url env script w1) = Return image ->
      reply_photo env (length (calls wg)) chat_id image []
        (regen_keyboard script) = Return sent ->
      fst (handle_script env update w) = Return tt
      /\ last_message (snd (handle_script env update w)) user_id
         = Some (message_id sent)
      /\ exists more,
           calls (snd (handle_script env update w))
           = calls wg
             ++ CallReplyPhoto chat_id image [] (regen_keyboard script) :: more
           /\ Forall (fun c => is_send c = false /\ is_delete c = false
                               /\ is_generate c = false) more)
  /\ (forall query,
        let user_id := query_user_id query in
        let chat_id := query_chat_id query in
        let script := regen_script (query_data query) in
        let w1 := after_retire env user_id chat_id (acknowledged env w) in
        let wg := snd (generate_image_url env script w1) in
        answer env (length (calls w)) = Return tt ->
        fst (generate_image_url env script w1) = Return image ->
        reply_photo env (length (calls wg)) chat_id image []
          (regen_keyboard script) = Return sent ->
        fst (on_regen_button env query w) = Return tt
        /\ last_message (snd (on_regen_button env query w)) user_id
           = Some (message_id sent)
        /\ exists more,
             calls (snd (on_regen_button env query w))
             = calls wg
               ++ CallReplyPhoto chat_id image [] (regen_keyboard script) :: more
             /\ Forall (fun c => is_send c = false /\ is_delete c = false
                                 /\ is_generate c = false) more).
Proof.
  assert (Hgen : forall user_id chat_id script w0,
             let w1 := after_retire env user_id chat_id w0 in
             let wg := snd (generate_image_url env script w1) in
             fst (generate_image_url env script w1) = Return image ->
             reply_photo env (length (calls wg)) chat_id image []
               (regen_keyboard script) = Return sent ->
             fst (respond env user_id chat_id script w1) = Return tt
             /\ last_message (snd (respond env user_id chat_id script w1)) user_id
                = Some (message_id sent)
             /\ exists more,
                  calls (snd (respond env user_id chat_id script w1))
                  = calls wg
                    ++ CallReplyPhoto chat_id image [] (regen_keyboard script)
                       :: more
                  /\ Forall (fun c => is_send c = false /\ is_delete c = false
                                      /\ is_generate c = false) more).
  { intros user_id chat_id script w0 w1 wg Hi Hp.
    pose proof (respond_on_success env user_id chat_id script w1 _ image
                  (eq_trans (f_equal (fun s => s !! user_id)
                               (after_retire_sessions env user_id chat_id w0))
                            (recorded_lookup w0 user_id chat_id)) Hi) as H.
    simpl in H. fold wg in H. rewrite Hp in H.
    destruct H as (Ho & Hs & Hc). split; [exact Ho|]. split; [|exact Hc].
    unfold last_message. rewrite Hs, lookup_insert_eq. simpl.
    apply lookup_insert_eq. }
  split.
  - intros update user_id chat_id script w1 wg Hi Hp.
    rewrite handle_script_after_retire. now apply Hgen.
  - intros query user_id chat_id script w1 wg Ha Hi Hp.
    rewrite (on_regen_button_acknowledged env query w Ha). now apply Hgen.
Qed.

Lemma successful_send_is_tracked_witness :
  fst (generate_image_url env_url (script_of upd_bicycle)
         (after_retire env_url 7 100 w_tracked))
  = Return (lit "https://img/1.png")
  /\ fst (handle_script env_url upd_bicycle w_tracked) = Return tt
  /\ last_message (snd (handle_script env_url upd_bicycle w_tracked)) 7
     = Some 1002%Z.
Proof.
  assert (Hi : fst (generate_image_url env_url (script_of upd_bicycle)
                      (after_retire env_url 7 100 w_tracked))
               = Return (lit "https://img/1.png")) by (vm_compute; reflexivity).
  split; [exact Hi|].
  destruct (proj1 (successful_send_is_tracked env_url w_tracked
                     (lit "https://img/1.png")
                     (sample_message 2 100 [ {| file_id := lit "AgACAgQ" |} ]))
              upd_bicycle Hi ltac:(vm_compute; reflexivity)) as (Ho & Hl & _).
  split; [exact Ho|exact Hl].
Defined.

(** X12: in both handlers, when the image is there but sending the photo
    raises, the user gets the failure notice instead, with the send error's
    own text as the reason: the handler's last two calls are the failed
    photo request and the notice. *)
Theorem photo_send_failure_is_reported env w image e :
  (forall update,
      let user_id := upd_user_id update in
      let chat_id := upd_chat_id update in
      let script := script_of update in
      let w1 := after_retire env user_id chat_id w in
      let wg := snd (generate_image_url env script w1) in
      fst (generate_image_url env script w1) = Return image ->
      reply_photo env (length (calls wg)) chat_id image []
        (regen_keyboard script) = Raise e ->
      calls (snd (handle_script env update w))
      = calls wg
        ++ [CallReplyPhoto chat_id image [] (regen_keyboard script);
            CallReplyText chat_id (error_msg script (exc_str e))])
  /\ (forall query,
        let user_id := query_user_id query in
        let chat_id := query_chat_id query in
        let script := regen_script (query_data query) in
        let w1 := after_retire env user_id chat_id (acknowledged env w) in
        let wg := snd (generate_image_url env script w1) in
        answer env (length (calls w)) = Return tt ->
        fst (generate_image_url env script w1) = Return image ->
        reply_photo env (length (calls wg)) chat_id image []
          (regen_keyboard script) = Raise e ->
        calls (snd (on_regen_button env query w))
        = calls wg
          ++ [CallReplyPhoto chat_id image [] (regen_keyboard script);
              CallReplyText chat_id (error_msg script (exc_str e))]).
Proof.
  assert (Hgen : forall user_id chat_id script w0,
             let w1 := after_retire env user_id chat_id w0 in
             let wg := snd (generate_image_url env script w1) in
             fst (generate_image_url env script w1) = Return image ->
             reply_photo env (length (calls wg)) chat_id image []
               (regen_keyboard script) = Raise e ->
             calls (snd (respond env user_id chat_id script w1))
             = calls wg
               ++ [CallReplyPhoto chat_id image [] (regen_keyboard script);
                   CallReplyText chat_id (error_msg script (exc_str e))]).
  { intros user_id chat_id script w0 w1 wg Hi Hp.
    pose proof (respond_on_success env user_id chat_id script w1 _ image
                  (eq_trans (f_equal (fun s => s !! user_id)
                               (after_retire_sessions env user_id chat_id w0))
                            (recorded_lookup w0 user_id chat_id)) Hi) as H.
    simpl in H. fold wg in H. rewrite Hp in H. rewrite H.
    rewrite notify_failure_calls. simpl. now rewrite <- app_assoc. }
  split.
  - intros update user_id chat_id script w1 wg Hi Hp.
    rewrite handle_script_after_retire. now apply Hgen.
  - intros query user_id chat_id script w1 wg Ha Hi Hp.
    rewrite (on_regen_button_acknowledged env query w Ha). now apply Hgen.
Qed.

Lemma photo_send_failure_is_reported_witness :
  fst (generate_image_url env_photo_fails (script_of upd_bicycle)
         (after_retire env_photo_fails 7 100 w_tracked))
  = Return (lit "https://img/1.png")
  /\ exists cs,
       calls (snd (handle_script env_photo_fails upd_bicycle w_tracked))
       = cs ++ [CallReplyPhoto 100 (lit "https://img/1.png") []
                  (regen_keyboard (lit "a red bicycle"));
                CallReplyText 100
                  (error_msg (lit "a red bicycle")
                     (lit "Flood control exceeded"))].
Proof.
  assert (Hi : fst (generate_image_url env_photo_fails (script_of upd_bicycle)
                      (after_retire env_photo_fails 7 100 w_tracked))
               = Return (lit "https://img/1.png")) by (vm_compute; reflexivity).
  split; [exact Hi|].
  eexists.
  exact (proj1 (photo_send_failure_is_reported env_photo_fails w_tracked
                  (lit "https://img/1.png") flood)
           upd_bicycle Hi eq_refl).
Defined.

(** X13: in both handlers, when the generator raises, the fate of the notice
    decides how the handler ends: if the notice is sent, the handler returns
    and the session tracks the notice's id; if sending the notice raises,
    that exception leaves the handler and the tracked id stays what it was,
    although that message has just been retired. *)
Theorem failure_notice_is_tracked env w e :
  (forall update,
      let user_id := upd_user_id update in
      let chat_id := upd_chat_id update in
      let script := script_of update in
      let w1 := after_retire env user_id chat_id w in
      let wg := snd (generate_image_url env script w1) in
      fst (generate_image_url env script w1) = Raise e ->
      match reply_text env (length (calls wg)) chat_id
              (error_msg script (exc_str e)) with
      | Return sent =>
          fst (handle_script env update w) = Return tt
          /\ last_message (snd (handle_script env update w)) user_id
             = Some (message_id sent)
      | Raise e2 =>
          fst (handle_script env update w) = Raise e2
          /\ last_message (snd (handle_script env update w)) user_id
             = last_message w user_id
      end)
  /\ (forall query,
        let user_id := query_user_id query in
        let chat_id := query_chat_id query in
        let script := regen_script (query_data query) in
        let w1 := after_retire env user_id chat_id (acknowledged env w) in
        let wg := snd (generate_image_url env script w1) in
        answer env (length (calls w)) = Return tt ->
        fst (generate_image_url env script w1) = Raise e ->
        match reply_text env (length (calls wg)) chat_id
                (error_msg script (exc_str e)) with
        | Return sent =>
            fst (on_regen_button env query w) = Return tt
            /\ last_message (snd (on_regen_button env query w)) user_id
               = Some (message_id sent)
        | Raise e2 =>
            fst (on_regen_button env query w) = Raise e2
            /\ last_message (snd (on_regen_button env query w)) user_id
               = last_message w user_id
        end).
Proof.
  assert (Hgen : forall user_id chat_id script w0,
             let w1 := after_retire env user_id chat_id w0 in
             let wg := snd (generate_image_url env script w1) in
             fst (generate_image_url env script w1) = Raise e ->
             match reply_text env (length (calls wg)) chat_id
                     (error_msg script (exc_str e)) with
             | Return sent =>
                 fst (respond env user_id chat_id script w1) = Return tt
                 /\ last_message (snd (respond env user_id chat_id script w1))
                      user_id
                    = Some (message_id sent)
             | Raise e2 =>
                 fst (respond env user_id chat_id script w1) = Raise e2
                 /\ last_message (snd (respond env user_id chat_id script w1))
                      user_id
                    = last_message w0 user_id
             end).
  { intros user_id chat_id script w0 w1 wg He.
    rewrite (respond_on_failure env user_id chat_id script w1 e He). fold wg.
    assert (Hs : UserSessions wg = recorded w0 user_id chat_id).
    { unfold wg. rewrite generate_image_url_sessions.
      apply after_retire_sessions. }
    erewrite notify_failure_run
      by (rewrite Hs; apply recorded_lookup).
    simpl. destruct (reply_text env _ _ _) as [sent|e2]; simpl.
    - split; [reflexivity|]. unfold last_message. simpl.
      rewrite lookup_insert_eq. simpl. apply lookup_insert_eq.
    - split; [reflexivity|]. unfold last_message. simpl. rewrite Hs.
      rewrite recorded_lookup. simpl.
      rewrite lookup_insert_ne by discriminate. apply default_empty_lookup. }
  split.
  - intros update user_id chat_id script w1 wg He.
    rewrite handle_script_after_retire. now apply Hgen.
  - intros query user_id chat_id script w1 wg Ha He.
    rewrite (on_regen_button_acknowledged env query w Ha).
    exact (Hgen user_id chat_id script (acknowledged env w) He).
Qed.

Lemma failure_notice_is_tracked_witness :
  fst (generate_image_url env_rate_limited (script_of upd_bicycle)
         (after_retire env_rate_limited 7 100 w_tracked))
  = Raise (Exn RuntimeError (lit "rate limit exceeded"))
  /\ fst (handle_script env_rate_limited upd_bicycle w_tracked) = Return tt
  /\ last_message (snd (handle_script env_rate_limited upd_bicycle w_tracked)) 7
     = Some 1002%Z.
Proof.
  assert (He : fst (generate_image_url env_rate_limited (script_of upd_bicycle)
                      (after_retire env_rate_limited 7 100 w_tracked))
               = Raise (Exn RuntimeError (lit "rate limit exceeded")))
    by (vm_compute; reflexivity).
  split; [exact He|].
  exact (proj1 (failure_notice_is_tracked env_rate_limited w_tracked
                  (Exn RuntimeError (lit "rate limit exceeded")))
           upd_bicycle He).
Defined.




(** ** Calls of a whole handler run *)

Lemma after_generate_emits_telegram env user_id chat_id script image :
  emits (fun c => is_telegram c = true /\ is_delete c = false)
    (try_except (deliver env user_id chat_id script image)
       (fun e => notify_failure env user_id chat_id script (exc_str e))).
Proof.
  unfold deliver, notify_failure, add_download_button. repeat emits_step.
Qed.

Lemma respond_calls_once env user_id chat_id script w :
  exists rest,
    calls (snd (respond env user_id chat_id script w))
    = calls w ++ CallImagesGenerate (upstream_request env script w) :: rest
    /\ Forall (fun c => is_generate c = false /\ is_delete c = false) rest.
Proof.
  rewrite respond_run.
  destruct (generate_image_url_run env script w) as (rest & E & F & _).
  assert (Frest : Forall (fun c => is_generate c = false /\ is_delete c = false)
                    rest).
  { destruct (generate_image_url_effect env script w) as (rest' & E' & Hr & _).
    rewrite E in E'. apply app_inv_head in E'. injection E' as <-.
    destruct Hr as [->|[raw ->]]; repeat constructor. }
  destruct (generate_image_url env script w) as [[image|e] wg]; simpl in E.
  - destruct (after_generate_emits_telegram env user_id chat_id script image wg)
      as (new & E' & F').
    exists (rest ++ new). rewrite E', E, <- app_assoc. simpl.
    split; [reflexivity|]. apply Forall_app. split; [exact Frest|].
    rewrite Forall_forall in *. intros c Hc. destruct (F' c Hc) as [Ht Hd].
    split; [|exact Hd]. now destruct c.
  - rewrite notify_failure_calls, E, <- app_assoc. simpl.
    exists (rest ++ [CallReplyText chat_id (error_msg script (exc_str e))]).
    split; [reflexivity|]. apply Forall_app. split; [exact Frest|].
    repeat constructor.
Qed.

Lemma delete_last_effect env user_id w :
  exists new,
    calls (snd (delete_last_message_if_any env user_id w)) = calls w ++ new
    /\ Forall (fun c => is_send c = false /\ is_generate c = false) new
    /\ (untracked w user_id -> new = []).
Proof.
  unfold untracked. destruct (truthy_int (last_message w user_id)) eqn:Hl.
  - unfold delete_last_message_if_any. unfold_monad.
    destruct (truthy_int _ && truthy_int _);
      [|exists []; simpl; rewrite app_nil_r; repeat split; auto; discriminate].
    destruct (_ !! "last_msg_id"%string) as [m|];
      [|exists []; simpl; rewrite app_nil_r; repeat split; auto; discriminate].
    destruct (_ !! "chat_id"%string) as [c|];
      [|exists []; simpl; rewrite app_nil_r; repeat split; auto; discriminate].
    exists [CallDeleteMessage c m]. simpl.
    destruct (delete_message env _ _ _) as [[]|e]; simpl;
      repeat split; auto; discriminate.
  - rewrite delete_last_skip by (left; exact Hl). exists []. simpl.
    rewrite app_nil_r. repeat split; auto.
Qed.

Lemma after_retire_calls env user_id chat_id w :
  exists retire,
    calls (after_retire env user_id chat_id w) = calls w ++ retire
    /\ Forall (fun c => is_send c = false /\ is_generate c = false) retire
    /\ (untracked w user_id -> retire = [])
    /\ uuid_draws (after_retire env user_id chat_id w) = uuid_draws w.
Proof.
  unfold after_retire.
  destruct (record_chat_and_retire_frame env user_id chat_id w) as [_ Hu].
  rewrite Hu. rewrite record_chat_and_retire_run.
  destruct (delete_last_effect env user_id
              (set_sessions (recorded w user_id chat_id) w))
    as (new & E & F & Hn).
  exists new. split; [exact E|]. split; [exact F|]. split; [|reflexivity].
  intros H. apply Hn. unfold untracked in *.
  replace (last_message (set_sessions (recorded w user_id chat_id) w) user_id)
    with (last_message w user_id); [exact H|].
  unfold last_message. simpl. rewrite recorded_lookup. simpl.
  rewrite lookup_insert_ne by discriminate.
  symmetry. apply default_empty_lookup.
Qed.

Lemma turn_calls env user_id chat_id script w0 :
  exists retire rest,
    calls (snd (respond env user_id chat_id script
                  (after_retire env user_id chat_id w0)))
    = calls w0 ++ retire
      ++ CallImagesGenerate
           (image_request
              (script ++ [NL; NL] ++ lit "# variation:"
               ++ uuid4 env (uuid_draws w0))) :: rest
    /\ Forall (fun c => is_send c = false /\ is_generate c = false) retire
    /\ (untracked w0 user_id -> retire = [])
    /\ Forall (fun c => is_generate c = false /\ is_delete c = false) rest.
Proof.
  destruct (after_retire_calls env user_id chat_id w0)
    as (retire & E1 & F1 & Hn & Hu).
  destruct (respond_calls_once env user_id chat_id script
              (after_retire env user_id chat_id w0)) as (rest & E & F).
  exists retire, rest. split; [|auto].
  rewrite E, E1, <- app_assoc. unfold upstream_request. now rewrite Hu.
Qed.

(** X19: a handler asks the provider exactly once per event, never again
    after a failure, and before anything is sent to the user: its calls are
    the retiring of the previous message (after the acknowledgement, for a
    button), then the one image request with the script followed by the
    variation suffix, then calls that are neither image requests nor
    deletes. *)
Theorem handlers_generate_once env w :
  (forall update,
      exists retire rest,
        calls (snd (handle_script env update w))
        = calls w ++ retire
          ++ CallImagesGenerate
               (image_request
                  (script_of update ++ [NL; NL] ++ lit "# variation:"
                   ++ uuid4 env (uuid_draws w))) :: rest
        /\ Forall (fun c => is_send c = false /\ is_generate c = false) retire
        /\ Forall (fun c => is_generate c = false /\ is_delete c = false) rest)
  /\ (forall query,
        answer env (length (calls w)) = Return tt ->
        exists retire rest,
          calls (snd (on_regen_button env query w))
          = calls w ++ CallAnswer :: retire
            ++ CallImagesGenerate
                 (image_request
                    (regen_script (query_data query) ++ [NL; NL]
                     ++ lit "# variation:" ++ uuid4 env (uuid_draws w)))
               :: rest
          /\ Forall (fun c => is_send c = false /\ is_generate c = false) retire
          /\ Forall (fun c => is_generate c = false /\ is_delete c = false) rest).
Proof.
  split.
  - intros update. rewrite handle_script_after_retire.
    destruct (turn_calls env (upd_user_id update) (upd_chat_id update)
                (script_of update) w) as (retire & rest & E & F1 & _ & F2).
    exists retire, rest. auto.
  - intros query Ha. rewrite (on_regen_button_acknowledged env query w Ha).
    destruct (turn_calls env (query_user_id query) (query_chat_id query)
                (regen_script (query_data query)) (acknowledged env w))
      as (retire & rest & E & F1 & _ & F2).
    exists retire, rest. split; [|auto]. rewrite E. simpl.
    now rewrite <- app_assoc.
Qed.

Lemma handlers_generate_once_witness :
  answer env_url (length (calls w_tracked)) = Return tt
  /\ exists retire rest,
       calls (snd (on_regen_button env_url query_bicycle w_tracked))
       = calls w_tracked ++ CallAnswer :: retire
         ++ CallImagesGenerate
              (image_request
                 (regen_script (query_data query_bicycle) ++ [NL; NL]
                  ++ lit "# variation:" ++ uuid4 env_url (uuid_draws w_tracked)))
            :: rest
       /\ Forall (fun c => is_send c = false /\ is_generate c = false) retire
       /\ Forall (fun c => is_generate c = false /\ is_delete c = false) rest.
Proof.
  split; [reflexivity|].
  exact (proj2 (handlers_generate_once env_url w_tracked) query_bicycle eq_refl).
Defined.

(** X16: for a user with nothing tracked (no session, no stored id, or the
    id [0]) a handler makes no delete request at all: the image request is
    the first call of [handle_script] and the first after the
    acknowledgement in [on_regen_button]. *)
Theorem untracked_user_no_delete env w :
  (forall update,
      untracked w (upd_user_id update) ->
      exists rest,
        calls (snd (handle_script env update w))
        = calls w
          ++ CallImagesGenerate
               (image_request
                  (script_of update ++ [NL; NL] ++ lit "# variation:"
                   ++ uuid4 env (uuid_draws w))) :: rest
        /\ Forall (fun c => is_delete c = false) rest)
  /\ (forall query,
        untracked w (query_user_id query) ->
        answer env (length (calls w)) = Return tt ->
        exists rest,
          calls (snd (on_regen_button env query w))
          = calls w ++ CallAnswer
            :: CallImagesGenerate
                 (image_request
                    (regen_script (query_data query) ++ [NL; NL]
                     ++ lit "# variation:" ++ uuid4 env (uuid_draws w)))
            :: rest
          /\ Forall (fun c => is_delete c = false) rest).
Proof.
  split.
  - intros update Hun. rewrite handle_script_after_retire.
    destruct (turn_calls env (upd_user_id update) (upd_chat_id update)
                (script_of update) w) as (retire & rest & E & _ & Hn & F2).
    rewrite (Hn Hun) in E. exists rest. split; [exact E|].
    rewrite Forall_forall in *. intros c Hc. now apply F2.
  - intros query Hun Ha.
    rewrite (on_regen_button_acknowledged env query w Ha).
    destruct (turn_calls env (query_user_id query) (query_chat_id query)
                (regen_script (query_data query)) (acknowledged env w))
      as (retire & rest & E & _ & Hn & F2).
    rewrite (Hn Hun) in E. exists rest. split.
    + rewrite E. simpl. now rewrite <- app_assoc.
    + rewrite Forall_forall in *. intros c Hc. now apply F2.
Qed.

Lemma untracked_user_no_delete_witness :
  untracked w_empty (upd_user_id upd_bicycle)
  /\ exists rest,
       calls (snd (handle_script env_url upd_bicycle w_empty))
       = calls w_empty
         ++ CallImagesGenerate
              (image_request
                 (script_of upd_bicycle ++ [NL; NL] ++ lit "# variation:"
                  ++ uuid4 env_url (uuid_draws w_empty))) :: rest
       /\ Forall (fun c => is_delete c = false) rest.
Proof.
  assert (H : untracked w_empty (upd_user_id upd_bicycle)) by reflexivity.
  split; [exact H|].
  exact (proj1 (untracked_user_no_delete env_url w_empty) upd_bicycle H).
Defined.

(** X3: a message whose text is missing or made of whitespace only is not
    rejected: the provider is asked for an image with the empty script, so
    the prompt it receives is the variation suffix alone. *)
Theorem blank_message_generates_empty_prompt env update w :
  upd_text update = None
  \/ (exists s, upd_text update = Some s /\ all_space s) ->
  exists retire rest,
    calls (snd (handle_script env update w))
    = calls w ++ retire
      ++ CallImagesGenerate
           (image_request
              ([NL; NL] ++ lit "# variation:" ++ uuid4 env (uuid_draws w)))
         :: rest
    /\ Forall (fun c => is_send c = false /\ is_generate c = false) retire.
Proof.
  intros Ht. rewrite handle_script_after_retire.
  assert (Hs : script_of update = []).
  { unfold script_of. destruct Ht as [->|(s & -> & Hs)]; [reflexivity|].
    now apply strip_all_space. }
  rewrite Hs.
  destruct (turn_calls env (upd_user_id update) (upd_chat_id update) [] w)
    as (retire & rest & E & F1 & _).
  exists retire, rest. auto.
Qed.

Lemma blank_message_generates_empty_prompt_witness :
  (upd_text upd_blank = None
   \/ exists s, upd_text upd_blank = Some s /\ all_space s)
  /\ exists retire rest,
       calls (snd (handle_script env_url upd_blank w_tracked))
       = calls w_tracked ++ retire
         ++ CallImagesGenerate
              (image_request
                 ([NL; NL] ++ lit "# variation:"
                  ++ uuid4 env_url (uuid_draws w_tracked)))
            :: rest
       /\ Forall (fun c => is_send c = false /\ is_generate c = false) retire.
Proof.
  assert (H : upd_text upd_blank = None
              \/ exists s, upd_text upd_blank = Some s /\ all_space s).
  { right. exists (lit "   "). split; [reflexivity|].
    repeat constructor. }
  split; [exact H|].
  exact (blank_message_generates_empty_prompt env_url upd_blank w_tracked H).
Defined.

(** X20: regeneration replays the prompt: a button press whose payload is
    the one [handle_script] put on its buttons for an update asks the
    provider for the same script again, with a fresh variation suffix,
    whatever characters the script contains. *)
Theorem regenerate_replays_script env update query w :
  query_data query = Some (callback_data (script_of update)) ->
  answer env (length (calls w)) = Return tt ->
  exists retire rest,
    calls (snd (on_regen_button env query w))
    = calls w ++ CallAnswer :: retire
      ++ CallImagesGenerate
           (image_request
              (script_of update ++ [NL; NL] ++ lit "# variation:"
               ++ uuid4 env (uuid_draws w))) :: rest
    /\ Forall (fun c => is_send c = false /\ is_generate c = false) retire.
Proof.
  intros Hd Ha. rewrite (on_regen_button_acknowledged env query w Ha), Hd.
  rewrite regen_script_callback_data.
  destruct (turn_calls env (query_user_id query) (query_chat_id query)
              (script_of update) (acknowledged env w))
    as (retire & rest & E & F1 & _).
  exists retire, rest. split; [|exact F1]. rewrite E. simpl.
  now rewrite <- app_assoc.
Qed.

Lemma regenerate_replays_script_witness :
  query_data query_bicycle = Some (callback_data (script_of upd_bicycle))
  /\ answer env_url (length (calls w_tracked)) = Return tt
  /\ exists retire rest,
       calls (snd (on_regen_button env_url query_bicycle w_tracked))
       = calls w_tracked ++ CallAnswer :: retire
         ++ CallImagesGenerate
              (image_request
                 (script_of upd_bicycle ++ [NL; NL] ++ lit "# variation:"
                  ++ uuid4 env_url (uuid_draws w_tracked))) :: rest
       /\ Forall (fun c => is_send c = false /\ is_generate c = false) retire.
Proof.
  split; [reflexivity|]. split; [reflexivity|].
  exact (regenerate_replays_script env_url upd_bicycle query_bicycle w_tracked
           eq_refl eq_refl).
Defined.

(** X25: a handler never removes a session: every user who has one before
    [handle_script] or [on_regen_button] runs has one afterwards, however
    the handler ends. *)
Theorem handlers_keep_sessions env w u :
  is_Some (UserSessions w !! u) ->
  (forall update,
      is_Some (UserSessions (snd (handle_script env update w)) !! u))
  /\ (forall query,
        is_Some (UserSessions (snd (on_regen_button env query w)) !! u)).
Proof.
  intros Hu.
  assert (Hgen : forall user_id chat_id script w0,
             UserSessions w0 = UserSessions w ->
             is_Some (UserSessions
                        (snd (respond env user_id chat_id script
                                (after_retire env user_id chat_id w0))) !! u)).
  { intros user_id chat_id script w0 Hw0.
    destruct (decide (u = user_id)) as [->|Hne].
    - pose proof (respond_keeps_chat env user_id chat_id script _ chat_id
                    (after_retire_chat env user_id chat_id w0)) as H.
      unfold session_chat in H. apply bind_Some in H as (d & Hd & _).
      rewrite Hd. eauto.
    - rewrite respond_other_users by exact Hne.
      rewrite after_retire_other_users by exact Hne. now rewrite Hw0. }
  split.
  - intros update. rewrite handle_script_after_retire. now apply Hgen.
  - intros query. rewrite on_regen_button_run.
    destruct (answer env (length (calls w))) as [[]|e]; [|exact Hu].
    now apply (Hgen _ _ _ (acknowledged env w)).
Qed.

Lemma handlers_keep_sessions_witness :
  is_Some (UserSessions w_tracked !! 7%Z)
  /\ is_Some (UserSessions
                (snd (handle_script env_all_fail upd_bicycle w_tracked)) !! 7%Z).
Proof.
  assert (H : is_Some (UserSessions w_tracked !! 7%Z)) by (eexists; reflexivity).
  split; [exact H|].
  exact (proj1 (handlers_keep_sessions env_all_fail w_tracked 7 H) upd_bicycle).
Defined.

(** ** The start command *)

(** X21: [start] greets the user by first name and then asks for a script,
    both as replies into the chat; the request is only sent when the
    greeting went out, and an exception of either send leaves the handler.
    It retires nothing: the session store, the debug log and the UUID
    counter are untouched. *)
Theorem start_greets_then_asks env update w :
  let chat_id := start_chat_id update in
  let greeting := welcome_msg (start_first_name update) in
  let w' := snd (start env update w) in
  UserSessions w' = UserSessions w
  /\ debug_log w' = debug_log w
  /\ uuid_draws w' = uuid_draws w
  /\ match reply_text env (length (calls w)) chat_id greeting with
     | Raise e =>
         fst (start env update w) = Raise e
         /\ calls w' = calls w ++ [CallReplyText chat_id greeting]
     | Return _ =>
         calls w'
         = calls w ++ [CallReplyText chat_id greeting;
                       CallReplyText chat_id ask_msg]
         /\ fst (start env update w)
            = match reply_text env (S (length (calls w))) chat_id ask_msg with
              | Return _ => Return tt
              | Raise e => Raise e
              end
     end.
Proof.
  intros chat_id greeting w'. subst chat_id greeting w'.
  unfold start. unfold_monad. simpl.
  destruct (reply_text env (length (calls w)) _ _) as [m1|e1]; simpl;
    [|auto].
  rewrite length_app, Nat.add_comm. simpl.
  destruct (reply_text env _ _ ask_msg) as [m2|e2]; simpl;
    rewrite <- app_assoc; auto.
Qed.

(** ** Start-up configuration *)

(** X22: the bot starts exactly when both credentials are set to non-empty
    values and the client can be built from the key; a credential that is
    unset or set to the empty string stops it with a [RuntimeError], the one
    about the Telegram token when both are missing, and a failure to build
    the client is reported as a [RuntimeError] with that failure's text. *)
Theorem load_config_requires_credentials environ make_client :
  (forall token key,
      load_config environ make_client = Return (token, key)
      <-> environ !! "TELEGRAM_BOT_TOKEN"%string = Some token /\ token <> []
          /\ environ !! "OPENAI_API_KEY"%string = Some key /\ key <> []
          /\ exists u, make_client key = Return u)
  /\ (getenv environ "TELEGRAM_BOT_TOKEN" = [] ->
      load_config environ make_client
      = Raise (Exn RuntimeError
                 (lit "TELEGRAM_BOT_TOKEN is missing. Set it in environment or .env")))
  /\ (getenv environ "TELEGRAM_BOT_TOKEN" <> [] ->
      getenv environ "OPENAI_API_KEY" = [] ->
      load_config environ make_client
      = Raise (Exn RuntimeError
                 (lit "OPENAI_API_KEY is missing. Set it in environment or .env")))
  /\ (forall e,
        getenv environ "TELEGRAM_BOT_TOKEN" <> [] ->
        getenv environ "OPENAI_API_KEY" <> [] ->
        make_client (getenv environ "OPENAI_API_KEY") = Raise e ->
        load_config environ make_client
        = Raise (Exn RuntimeError
                   (lit "Failed to initialize OpenAI client: " ++ exc_str e))).
Proof.
  unfold load_config, getenv.
  split; [|split; [|split]].
  - intros token key. split.
    + destruct (environ !! "TELEGRAM_BOT_TOKEN"%string) as [[|c t]|]; simpl;
        try discriminate.
      destruct (environ !! "OPENAI_API_KEY"%string) as [[|c' k]|]; simpl;
        try discriminate.
      destruct (make_client (c' :: k)) as [u|e] eqn:Hm; [|discriminate].
      intros H. injection H as <- <-. repeat split; try discriminate. eauto.
    + intros (-> & Ht & -> & Hk & u & Hu). simpl.
      destruct token as [|c t]; [congruence|].
      destruct key as [|c' k]; [congruence|]. now rewrite Hu.
  - intros ->. reflexivity.
  - intros Ht ->. destruct (default [] _); [congruence|reflexivity].
  - intros e Ht Hk Hm.
    destruct (default [] (environ !! "TELEGRAM_BOT_TOKEN"%string));
      [congruence|].
    destruct (default [] (environ !! "OPENAI_API_KEY"%string)) eqn:E;
      [congruence|]. now rewrite Hm.
Qed.

Lemma load_config_requires_credentials_witness :
  getenv {[ "OPENAI_API_KEY"%string := lit "sk-test" ]} "TELEGRAM_BOT_TOKEN" = []
  /\ load_config {[ "OPENAI_API_KEY"%string := lit "sk-test" ]}
       (fun _ => Return tt)
     = Raise (Exn RuntimeError
                (lit "TELEGRAM_BOT_TOKEN is missing. Set it in environment or .env")).
Proof.
  split; [reflexivity|].
  exact (proj1 (proj2 (load_config_requires_credentials
                         {[ "OPENAI_API_KEY"%string := lit "sk-test" ]}
                         (fun _ => Return tt))) eq_refl).
Defined.

(** ** The pattern of the button handler *)

(** X24: the pattern registered for [on_regen_button] accepts every payload:
    its alternation has an empty right side.  The left side asks for a
    backslash after [regen], so it accepts none of the payloads the bot
    itself produces; those are accepted by the empty side, as any other
    text would be. *)
Theorem regen_pattern_accepts_everything :
  (forall payload, re_match regen_pattern payload = true)
  /\ (forall script,
        re_match (ReSeq ReStart (re_literal (lit "regen" ++ [92])))
          (callback_data script) = false).
Proof.
  split.
  - intros payload. unfold re_match, regen_pattern. simpl re_match_here.
    apply orb_true_r.
  - intros script. reflexivity.
Qed.
